(** * Remote evaluation bridge: value marshalling, program encoding, error translation

    Shallow embedding of [valueFromRemoteObject], [isString],
    [_evaluateInternal], [convertArgument] and [rewriteError] (the second
    document of [InputDragger.tsx], a port of puppeteer's execution context),
    of [serveStatic] (the static file server) and of the [onBlur] handler of
    the [InputDragger] component, followed by their properties.

    Conventions of the embedding.
    - A JavaScript string is a [string]: a sequence of code units below 256.
    - A JavaScript number is a [spec_float] (IEEE 754 values as data): the four
      sentinels are constructors of their own and [Object.is] on numbers is
      structural equality, whereas [===] is [SFeqb].
    - A property that may be absent from an object is an [option] field;
      reading an absent property gives [VUndefined].
    - [throw] is the [Throw] constructor of [Result]; the commands handed to
      the transport are collected in a log threaded through the monad [M]. *)

From Stdlib Require Import ZArith List String Ascii Bool Lia.
From Stdlib Require Import SpecFloat DecimalString DecimalZ DecimalPos.
Import ListNotations.
Open Scope string_scope.

(* ------------------------------------------------------------------ *)
(** ** Strings *)

Definition LF : ascii := "010"%char.
Definition newline : string := String LF EmptyString.

(** [s.startsWith(p)] *)
Definition startsWith (s p : string) : bool := prefix p s.

(** [s.includes(p)] *)
Fixpoint includes (s p : string) : bool :=
  if prefix p s then true
  else match s with
       | EmptyString => false
       | String _ s' => includes s' p
       end.

(** [s.endsWith(p)] *)
Fixpoint endsWith (s p : string) : bool :=
  if String.eqb s p then true
  else match s with
       | EmptyString => false
       | String _ s' => endsWith s' p
       end.

(** [s.substring(n)] *)
Fixpoint substringFrom (n : nat) (s : string) : string :=
  match n, s with
  | O, _ => s
  | S _, EmptyString => EmptyString
  | S n', String _ s' => substringFrom n' s'
  end.

(** [s.replace(pat, repl)] with a string pattern: only the first occurrence
    is replaced. *)
Fixpoint replaceFirst (s pat repl : string) : string :=
  if prefix pat s then repl ++ substringFrom (length pat) s
  else match s with
       | EmptyString => EmptyString
       | String c s' => String c (replaceFirst s' pat repl)
       end.

(** [s.split(sep)] for a one-character separator; never the empty list. *)
Fixpoint split (s : string) (sep : ascii) : list string :=
  match s with
  | EmptyString => [EmptyString]
  | String c s' =>
      if Ascii.eqb c sep then EmptyString :: split s' sep
      else match split s' sep with
           | l :: ls => String c l :: ls
           | [] => [String c EmptyString]
           end
  end.

(** The white space of [\s], of [String.prototype.trim] and of
    [StringToBigInt], among the code units below 256: TAB, LF, VT, FF, CR,
    SP and NBSP. *)
Definition isWhiteSpace (c : ascii) : bool :=
  let n := nat_of_ascii c in
  ((9 <=? n) && (n <=? 13) || (n =? 32) || (n =? 160))%nat.

(** The line terminators among the code units below 256: LF and CR. *)
Definition isLineTerminator (c : ascii) : bool :=
  let n := nat_of_ascii c in ((n =? 10) || (n =? 13))%nat.

Fixpoint trimStart (s : string) : string :=
  match s with
  | EmptyString => EmptyString
  | String c s' => if isWhiteSpace c then trimStart s' else s
  end.

Fixpoint trimEnd (s : string) : string :=
  match s with
  | EmptyString => EmptyString
  | String c s' =>
      match trimEnd s' with
      | EmptyString => if isWhiteSpace c then EmptyString else String c EmptyString
      | t => String c t
      end
  end.

Definition trim (s : string) : string := trimEnd (trimStart s).

(* ------------------------------------------------------------------ *)
(** ** Numbers and big integers *)

Definition JSNumber := spec_float.

Definition NaN : JSNumber := S754_nan.
Definition Infinity : JSNumber := S754_infinity false.
Definition negInfinity : JSNumber := S754_infinity true.
Definition negZero : JSNumber := S754_zero true.
Definition posZero : JSNumber := S754_zero false.

(** [Object.is] on two numbers (SameValue): the same datum. *)
Definition sameNumber (x y : JSNumber) : bool :=
  match x, y with
  | S754_zero s, S754_zero s' => Bool.eqb s s'
  | S754_infinity s, S754_infinity s' => Bool.eqb s s'
  | S754_nan, S754_nan => true
  | S754_finite s m e, S754_finite s' m' e' =>
      Bool.eqb s s' && Pos.eqb m m' && Z.eqb e e'
  | _, _ => false
  end.

(** Truthiness of a number: neither a zero nor NaN. *)
Definition truthyNumber (x : JSNumber) : bool :=
  match x with
  | S754_zero _ | S754_nan => false
  | S754_infinity _ | S754_finite _ _ _ => true
  end.

(** [n.toString()] of a big integer: its decimal digits, with a leading
    minus sign when negative. *)
Definition BigInt_toString (n : Z) : string :=
  NilZero.string_of_int (Z.to_int n).

(** Value of a digit character in bases up to sixteen. *)
Definition digitValue (c : ascii) : option Z :=
  let n := Z.of_nat (nat_of_ascii c) in
  (if (48 <=? n) && (n <=? 57) then Some (n - 48)
   else if (97 <=? n) && (n <=? 102) then Some (n - 87)
   else if (65 <=? n) && (n <=? 70) then Some (n - 55)
   else None)%Z.

Fixpoint parseDigitsAcc (radix : Z) (s : string) (acc : Z) : option Z :=
  match s with
  | EmptyString => Some acc
  | String c s' =>
      match digitValue c with
      | Some d =>
          if (d <? radix)%Z then parseDigitsAcc radix s' (radix * acc + d)%Z
          else None
      | None => None
      end
  end.

(** One digit at least. *)
Definition parseDigits (radix : Z) (s : string) : option Z :=
  match s with
  | EmptyString => None
  | _ => parseDigitsAcc radix s 0%Z
  end.

(** [StringToBigInt]: white space is trimmed, the empty text is zero, an
    unsigned literal may carry a 0x, 0o or 0b prefix, a decimal literal may
    carry a sign. [None] is the SyntaxError of [BigInt(text)]. *)
Definition StringToBigInt (text : string) : option Z :=
  match trim text with
  | EmptyString => Some 0%Z
  | String "0" (String ("x" | "X") ds) => parseDigits 16 ds
  | String "0" (String ("o" | "O") ds) => parseDigits 8 ds
  | String "0" (String ("b" | "B") ds) => parseDigits 2 ds
  | String "-" ds => option_map Z.opp (parseDigits 10 ds)
  | String "+" ds => parseDigits 10 ds
  | ds => parseDigits 10 ds
  end.


(* ------------------------------------------------------------------ *)
(** ** Values, handles and protocol objects *)

(** [Protocol.Runtime.RemoteObject], over the type of the values it may
    carry. [type] is required by the protocol's declaration; it is an option
    here because an object built locally and read through this interface (a
    [CallArgument]) has no such property. *)
Module RemoteObject.
Record t (V : Type) : Type := mk {
  type : option string;
  className : option string;
  value : option V;
  unserializableValue : option string;
  description : option string;
  objectId : option string
}.
Arguments mk {V}.
Arguments type {V}.
Arguments className {V}.
Arguments value {V}.
Arguments unserializableValue {V}.
Arguments description {V}.
Arguments objectId {V}.
End RemoteObject.

(** The two fields of puppeteer's [JSHandle] that the bridge reads. *)
Module JSHandle.
Record t (V : Type) : Type := mk {
  _disposed : bool;
  _remoteObject : RemoteObject.t V
}.
Arguments mk {V}.
Arguments _disposed {V}.
Arguments _remoteObject {V}.
End JSHandle.

(** The values a caller can pass ([unknown]): primitives, symbols among
    them, [String] wrapper objects, functions (by the text [toString]
    prints), arrays and objects by their own properties, and handles. *)
#[local] Unset Elimination Schemes.
Inductive JSValue : Type :=
| VUndefined
| VNull
| VBoolean (b : bool)
| VNumber (x : JSNumber)
| VBigInt (n : Z)
| VString (s : string)
| VSymbol (description : string)
| VStringObject (s : string)
| VFunction (text : string)
| VArray (items : list JSValue)
| VObject (properties : list (string * JSValue))
| VHandle (h : JSHandle.t JSValue).
#[local] Set Elimination Schemes.

Definition RemoteObject := RemoteObject.t JSValue.
Definition JSHandle := JSHandle.t JSValue.

(** [Protocol.Runtime.CallArgument]: an object literal with the listed
    properties; a property set to [undefined] is present ([Some VUndefined]). *)
Module CallArgument.
Record t : Type := mk {
  value : option JSValue;
  unserializableValue : option string;
  objectId : option string
}.
End CallArgument.
Definition CallArgument := CallArgument.t.

(** Truthiness of a property holding a string when present. *)
Definition truthy (o : option string) : bool :=
  match o with
  | Some (String _ _) => true
  | Some EmptyString | None => false
  end.

(** Reading a property that may be absent. *)
Definition read (o : option JSValue) : JSValue :=
  match o with
  | Some v => v
  | None => VUndefined
  end.

(** [Object.is(arg, x)] for a number [x]. *)
Definition Object_is (arg : JSValue) (x : JSNumber) : bool :=
  match arg with
  | VNumber y => sameNumber y x
  | _ => false
  end.

(** [typeof obj === 'string' || obj instanceof String] *)
Definition isString (obj : JSValue) : bool :=
  match obj with
  | VString _ | VStringObject _ => true
  | _ => false
  end.

(* ------------------------------------------------------------------ *)
(** ** Errors and results *)

Inductive ErrorClass : Type := ClassError | ClassTypeError | ClassSyntaxError.

(** An [Error] object: its constructor and its message. *)
Record ErrorObject : Type := mkError {
  errorClass : ErrorClass;
  message : string
}.

(** [new Error(msg)] *)
Definition newError (msg : string) : ErrorObject := mkError ClassError msg.

(** Modelled from the spec: a frame of the parsed stack, the element type of
    what [parseStack] of the absent module parse-browser-error-stack returns
    (frames with file, function, line and column where derivable). *)
Record StackFrame : Type := mkStackFrame {
  frame_file : option string;
  frame_function : option string;
  frame_line : option Z;
  frame_column : option Z
}.

(** Modelled from the spec: [SymbolicateableError] of the absent module
    error-handling/symbolicateable-error, as the options object its
    constructor receives. A field is [None] where the source passes
    [undefined]. *)
Module SymbolicateableError.
Record t : Type := mk {
  stack : option string;
  name : option string;
  message : option string;
  frame : option JSNumber;
  stackFrame : list StackFrame
}.
End SymbolicateableError.

Inductive Exception : Type :=
| Thrown (e : ErrorObject)
| ThrownSymbolicateable (e : SymbolicateableError.t).

Inductive Result (A : Type) : Type :=
| Return (a : A)
| Throw (e : Exception).
Arguments Return {A}.
Arguments Throw {A}.

(** What the bridge takes from the JavaScript host and from the modules it
    imports. *)
Record Host : Type := mkHost {
  (** [typeof BigInt !== 'undefined'] *)
  hasBigInt : bool;
  (** [new Function(body)] returns rather than throws *)
  functionConstructorAccepts : string -> bool;
  (** [ToString] of a value that is not a symbol, as a template literal
      applies it: a text, or what the conversion throws (an object whose
      [toString] and [valueOf] give no primitive, or throw) *)
  templateToString : JSValue -> Result string;
  (** [parseStack] of parse-browser-error-stack *)
  parseStack : list string -> list StackFrame
}.

(** [BigInt(text)] *)
Definition BigInt (text : string) : Result JSValue :=
  match StringToBigInt text with
  | Some n => Return (VBigInt n)
  | None =>
      Throw (Thrown (mkError ClassSyntaxError
                       ("Cannot convert " ++ text ++ " to a BigInt")))
  end.

(** Truthiness of a value. *)
Definition ToBoolean (v : JSValue) : bool :=
  match v with
  | VUndefined | VNull => false
  | VBoolean b => b
  | VNumber x => truthyNumber x
  | VBigInt n => negb (Z.eqb n 0)
  | VString s => negb (String.eqb s EmptyString)
  | VSymbol _ | VStringObject _ | VFunction _ | VArray _ | VObject _
  | VHandle _ => true
  end.

(** What a template literal interpolates for a value: [ToString] throws a
    TypeError for a symbol. *)
Definition interpolated (host : Host) (v : JSValue) : Result string :=
  match v with
  | VSymbol _ =>
      Throw (Thrown (mkError ClassTypeError
                       "Cannot convert a Symbol value to a string"))
  | _ => templateToString host v
  end.

(** What the name [JSHandle] is bound to where [convertArgument] runs: a
    test for the instances of a class, or nothing. The source imports the
    name as a value from the main entry of puppeteer-core, which exports
    the Puppeteer object and no class of that name: the binding is
    [undefined]. *)
Definition JSHandle_binding : option (JSValue -> bool) := None.

(** [v instanceof C]: a TypeError when [C] is [undefined] (the message is
    the one of V8). *)
Definition instanceOf (v : JSValue) (C : option (JSValue -> bool))
  : Result bool :=
  match C with
  | Some isInstance => Return (isInstance v)
  | None =>
      Throw (Thrown (mkError ClassTypeError
                       "Right-hand side of 'instanceof' is not an object"))
  end.

(* ------------------------------------------------------------------ *)
(** ** Value marshalling *)

Definition valueFromRemoteObject (host : Host) (remoteObject : RemoteObject)
  : Result JSValue :=
  if truthy (RemoteObject.unserializableValue remoteObject) then
    let tag := match RemoteObject.unserializableValue remoteObject with
               | Some t => t
               | None => EmptyString
               end in
    if match RemoteObject.type remoteObject with
       | Some ty => String.eqb ty "bigint"
       | None => false
       end && hasBigInt host
    then BigInt (replaceFirst tag "n" EmptyString)
    else if String.eqb tag "-0" then Return (VNumber negZero)
    else if String.eqb tag "NaN" then Return (VNumber NaN)
    else if String.eqb tag "Infinity" then Return (VNumber Infinity)
    else if String.eqb tag "-Infinity" then Return (VNumber negInfinity)
    else Throw (Thrown (newError ("Unsupported unserializable value: " ++ tag)))
  else Return (read (RemoteObject.value remoteObject)).

Definition convertArgument (arg : JSValue) : Result CallArgument :=
  match arg with
  | VBigInt n =>
      Return (CallArgument.mk None (Some (BigInt_toString n ++ "n")) None)
  | _ =>
  if Object_is arg negZero then Return (CallArgument.mk None (Some "-0") None)
  else if Object_is arg Infinity then Return (CallArgument.mk None (Some "Infinity") None)
  else if Object_is arg negInfinity then Return (CallArgument.mk None (Some "-Infinity") None)
  else if Object_is arg NaN then Return (CallArgument.mk None (Some "NaN") None)
  else
    (* arg && arg instanceof JSHandle ? arg : null *)
    match (if ToBoolean arg then instanceOf arg JSHandle_binding
           else Return false) with
    | Throw e => Throw e
    | Return false => Return (CallArgument.mk (Some arg) None None)
    | Return true =>
        match arg with
        | VHandle objectHandle =>
            let remoteObject := JSHandle._remoteObject objectHandle in
            if JSHandle._disposed objectHandle
            then Throw (Thrown (newError "JSHandle is disposed!"))
            else if truthy (RemoteObject.unserializableValue remoteObject)
            then Return (CallArgument.mk None (RemoteObject.unserializableValue remoteObject) None)
            else if negb (truthy (RemoteObject.objectId remoteObject))
            then Return (CallArgument.mk (Some (read (RemoteObject.value remoteObject))) None None)
            else Return (CallArgument.mk None None (RemoteObject.objectId remoteObject))
        | _ => Return (CallArgument.mk (Some arg) None None)
        end
    end
  end.

(** The object literal a [CallArgument] is, read through the interface of a
    [RemoteObject]: the properties it lacks are absent. *)
Definition asRemoteObject (a : CallArgument) : RemoteObject :=
  RemoteObject.mk None None (CallArgument.value a)
    (CallArgument.unserializableValue a) None (CallArgument.objectId a).

(** The same object as the remote side reports it, with a [type]. *)
Definition withType (ty : string) (r : RemoteObject) : RemoteObject :=
  RemoteObject.mk (Some ty) (RemoteObject.className r) (RemoteObject.value r)
    (RemoteObject.unserializableValue r) (RemoteObject.description r)
    (RemoteObject.objectId r).

(* ------------------------------------------------------------------ *)
(** ** The source-URL pattern *)

(** The constructs [SOURCE_URL_REGEX] is made of. A backtracking matcher
    tries the longer repetition first for [Star] and the shorter first for
    [LazyStar]. *)
Inductive Atom : Type :=
| LineStart                       (* ^ under the m flag *)
| LineEnd                         (* $ under the m flag *)
| Class (p : ascii -> bool)       (* one character of a class *)
| Star (p : ascii -> bool)        (* class* *)
| LazyStar (p : ascii -> bool).   (* class*? *)

Definition literal (text : string) : list Atom :=
  map (fun c => Class (Ascii.eqb c)) (list_ascii_of_string text).

Definition atLineStart (prev : option ascii) : bool :=
  match prev with
  | None => true
  | Some c => isLineTerminator c
  end.

Definition atLineEnd (s : string) : bool :=
  match s with
  | EmptyString => true
  | String c _ => isLineTerminator c
  end.

(** [matchesAt pat prev s]: the pattern matches at the position whose
    preceding character is [prev] and where [s] is what remains. *)
Fixpoint matchesAt (pat : list Atom) (prev : option ascii) (s : string)
  {struct pat} : bool :=
  match pat with
  | [] => true
  | LineStart :: rest => atLineStart prev && matchesAt rest prev s
  | LineEnd :: rest => atLineEnd s && matchesAt rest prev s
  | Class p :: rest =>
      match s with
      | String c s' => p c && matchesAt rest (Some c) s'
      | EmptyString => false
      end
  | Star p :: rest =>
      (fix more (prev : option ascii) (s : string) {struct s} : bool :=
         match s with
         | String c s' => p c && more (Some c) s'
         | EmptyString => false
         end || matchesAt rest prev s) prev s
  | LazyStar p :: rest =>
      (fix more (prev : option ascii) (s : string) {struct s} : bool :=
         matchesAt rest prev s ||
         match s with
         | String c s' => p c && more (Some c) s'
         | EmptyString => false
         end) prev s
  end.

Fixpoint searchFrom (pat : list Atom) (prev : option ascii) (s : string) : bool :=
  matchesAt pat prev s ||
  match s with
  | String c s' => searchFrom pat (Some c) s'
  | EmptyString => false
  end.

(** [regex.test(s)] for a regex without the g or y flag. *)
Definition RegExp_test (pat : list Atom) (s : string) : bool :=
  searchFrom pat None s.

Definition isBlankOrTab (c : ascii) : bool :=
  Ascii.eqb c " " || Ascii.eqb c "009".

Definition isAtOrHash (c : ascii) : bool :=
  Ascii.eqb c "@" || Ascii.eqb c "#".

Definition isNonWhiteSpace (c : ascii) : bool := negb (isWhiteSpace c).

(** [/^[\040\t]*\/\/[@#] sourceURL=\s*(\S*?)\s*$/m] *)
Definition SOURCE_URL_REGEX : list Atom :=
  ([LineStart; Star isBlankOrTab] ++ literal "//" ++ [Class isAtOrHash]
   ++ literal " sourceURL="
   ++ [Star isWhiteSpace; LazyStar isNonWhiteSpace; Star isWhiteSpace; LineEnd])%list.

(* ------------------------------------------------------------------ *)
(** ** The transport *)

Inductive Command : Type :=
| Runtime_evaluate
    (expression : string) (contextId : JSNumber)
    (returnByValue awaitPromise userGesture : bool)
| Runtime_callFunctionOn
    (functionDeclaration : string) (executionContextId : JSNumber)
    (arguments : list CallArgument)
    (returnByValue awaitPromise userGesture : bool).

Module ExceptionDetails.
Record t : Type := mk {
  text : string;
  exception : option RemoteObject
}.
End ExceptionDetails.

(** [Protocol.Runtime.EvaluateResponse] and [CallFunctionOnResponse]. *)
Module Response.
Record t : Type := mk {
  exceptionDetails : option ExceptionDetails.t;
  result : RemoteObject
}.
End Response.

Inductive Promise : Type :=
| Resolves (response : Response.t)
| Rejects (error : ErrorObject).

(** [client.send(...)] either throws before anything is transmitted (the
    message cannot be serialized) or returns a promise. *)
Inductive SendOutcome : Type :=
| SendThrows (error : ErrorObject)
| SendReturns (promise : Promise).

Definition CDPSession := Command -> SendOutcome.

(** Computations that may throw and that log the calls of [client.send]. *)
Definition M (A : Type) : Type := list Command -> list Command * Result A.

Definition ret {A} (a : A) : M A := fun log => (log, Return a).

Definition throw {A} (e : Exception) : M A := fun log => (log, Throw e).

Definition lift {A} (r : Result A) : M A := fun log => (log, r).

Definition bind {A B} (m : M A) (k : A -> M B) : M B :=
  fun log =>
    match m log with
    | (log', Return a) => k a log'
    | (log', Throw e) => (log', Throw e)
    end.

Notation "x <- m ;; k" := (bind m (fun x => k))
  (at level 61, m at next level, right associativity).

Definition tryCatch {A} (m : M A) (handler : Exception -> M A) : M A :=
  fun log =>
    match m log with
    | (log', Throw e) => handler e log'
    | done => done
    end.

Definition send (client : CDPSession) (command : Command) : M Promise :=
  fun log =>
    match client command with
    | SendThrows e => ((log ++ [command])%list, Throw (Thrown e))
    | SendReturns p => ((log ++ [command])%list, Return p)
    end.

(** [await promise.catch(handler)] *)
Definition awaitCatch (promise : Promise) (handler : ErrorObject -> Result Response.t)
  : M Response.t :=
  match promise with
  | Resolves response => ret response
  | Rejects error => lift (handler error)
  end.

(** [args.map(f)] for an [f] that may throw: left to right, up to the first
    throw. *)
Fixpoint mapResult {A B} (f : A -> Result B) (l : list A) : Result (list B) :=
  match l with
  | [] => Return []
  | a :: l' =>
      match f a with
      | Throw e => Throw e
      | Return b =>
          match mapResult f l' with
          | Throw e => Throw e
          | Return bs => Return (b :: bs)
          end
      end
  end.

(** The log and the outcome of a call started with nothing sent. *)
Definition run {A} (m : M A) : list Command * Result A := m [].

(* ------------------------------------------------------------------ *)
(** ** Error translation *)

Definition undefinedResponse : Response.t :=
  Response.mk None (RemoteObject.mk (Some "undefined") None None None None None).

Definition rewriteError (error : ErrorObject) : Result Response.t :=
  if includes (message error) "Object reference chain is too long"
  then Return undefinedResponse
  else if includes (message error) "Object couldn't be returned by value"
  then Return undefinedResponse
  else if endsWith (message error) "Cannot find context with specified id"
          || endsWith (message error) "Inspected target navigated or closed"
  then Throw (Thrown (newError
         "Execution context was destroyed, most likely because of a navigation."))
  else Throw (Thrown error).

(* ------------------------------------------------------------------ *)
(** ** The invoker *)

Definition EVALUATION_SCRIPT_URL : string := "__puppeteer_evaluation_script__".

Definition DQUOTE : string := String (ascii_of_nat 34) EmptyString.

(** [typeof v === 'function'] *)
Definition isFunction (v : JSValue) : bool :=
  match v with
  | VFunction _ => true
  | _ => false
  end.

(** The characters of a string or of a [String] object. *)
Definition stringOf (v : JSValue) : string :=
  match v with
  | VString s | VStringObject s => s
  | _ => EmptyString
  end.

(** [f.toString()] *)
Definition Function_toString (v : JSValue) : string :=
  match v with
  | VFunction text => text
  | _ => EmptyString
  end.

(** The block under [if (exceptionDetails)], which the source spells out
    once per call shape. The properties of the options object are evaluated
    in order; the last one calls [split] on the description without a
    guard. *)
Definition remoteException (host : Host) (exceptionDetails : ExceptionDetails.t)
  (frame : option JSNumber) : Exception :=
  let exception := ExceptionDetails.exception exceptionDetails in
  let description :=
    match exception with
    | Some e => RemoteObject.description e
    | None => None
    end in
  let className :=
    match exception with
    | Some e => RemoteObject.className e
    | None => None
    end in
  match description with
  | Some text =>
      ThrownSymbolicateable
        (SymbolicateableError.mk
           description
           className
           (option_map (fun d => hd EmptyString (split d LF)) description)
           frame
           (parseStack host (split text LF)))
  | None =>
      Thrown (mkError ClassTypeError
                "Cannot read properties of undefined (reading 'split')")
  end.

Definition _evaluateInternal (host : Host) (client : CDPSession)
  (contextId : JSNumber) (pageFunction : JSValue) (frame : option JSNumber)
  (args : option (list JSValue)) : M JSValue :=
  let args := match args with Some a => a | None => [] end in
  let suffix := "//# sourceURL=" ++ EVALUATION_SCRIPT_URL in
  if isString pageFunction then
    let expression := stringOf pageFunction in
    let expressionWithSourceUrl :=
      if RegExp_test SOURCE_URL_REGEX expression
      then expression
      else expression ++ newline ++ suffix in
    promise <- send client
                 (Runtime_evaluate expressionWithSourceUrl contextId true true true) ;;
    response <- awaitCatch promise rewriteError ;;
    match Response.exceptionDetails response with
    | Some exceptDetails => throw (remoteException host exceptDetails frame)
    | None => lift (valueFromRemoteObject host (Response.result response))
    end
  else if negb (isFunction pageFunction) then
    shown <- lift (interpolated host pageFunction) ;;
    throw (Thrown (newError
      ("Expected to get |string| or |function| as the first argument, but got "
       ++ DQUOTE ++ shown ++ DQUOTE ++ " instead.")))
  else
    functionText <-
      (let functionText := Function_toString pageFunction in
       if functionConstructorAccepts host ("(" ++ functionText ++ ")")
       then ret functionText
       else
         let functionText :=
           if startsWith functionText "async "
           then "async function " ++ substringFrom (length "async ") functionText
           else "function " ++ functionText in
         if functionConstructorAccepts host ("(" ++ functionText ++ ")")
         then ret functionText
         else throw (Thrown (newError "Passed function is not well-serializable!"))) ;;
    callFunctionOnPromise <-
      tryCatch
        (arguments <- lift (mapResult convertArgument args) ;;
         send client
           (Runtime_callFunctionOn
              (functionText ++ newline ++ suffix ++ newline)
              contextId arguments true true true))
        (fun error =>
           match error with
           | Thrown e =>
               match errorClass e with
               | ClassTypeError =>
                   if startsWith (message e) "Converting circular structure to JSON"
                   then throw (Thrown (mkError (errorClass e)
                                 (message e ++ " Are you passing a nested JSHandle?")))
                   else throw error
               | _ => throw error
               end
           | _ => throw error
           end) ;;
    response <- awaitCatch callFunctionOnPromise rewriteError ;;
    match Response.exceptionDetails response with
    | Some exceptionDetails => throw (remoteException host exceptionDetails frame)
    | None => lift (valueFromRemoteObject host (Response.result response))
    end.

(* ------------------------------------------------------------------ *)
(** ** Vocabulary of the properties *)

(** Every character of [s] satisfies [p]. *)
Fixpoint every (p : ascii -> bool) (s : string) : bool :=
  match s with
  | EmptyString => true
  | String c s' => p c && every p s'
  end.

Definition contains (s p : string) : Prop := exists a b, s = a ++ p ++ b.

Definition hasSuffix (s p : string) : Prop := exists a, s = a ++ p.

Definition hasPrefix (s p : string) : Prop := exists b, s = p ++ b.

(** The two phrases after which a rejected call counts as an empty success. *)
Definition benign (msg : string) : Prop :=
  contains msg "Object reference chain is too long" \/
  contains msg "Object couldn't be returned by value".

(** The two endings that announce a destroyed execution context. *)
Definition contextGone (msg : string) : Prop :=
  hasSuffix msg "Cannot find context with specified id" \/
  hasSuffix msg "Inspected target navigated or closed".

Definition executionContextDestroyed : Exception :=
  Thrown (newError
    "Execution context was destroyed, most likely because of a navigation.").

Definition handleDisposed : Exception :=
  Thrown (newError "JSHandle is disposed!").

Definition malformedCallable : Exception :=
  Thrown (newError "Passed function is not well-serializable!").

Definition unsupportedUnserializableValue (tag : string) : Exception :=
  Thrown (newError ("Unsupported unserializable value: " ++ tag)).

(** The error for a program that is neither string nor function, given the
    text interpolated for the program. *)
Definition expectedStringOrFunction (shown : string) : Exception :=
  Thrown (newError
    ("Expected to get |string| or |function| as the first argument, but got "
     ++ DQUOTE ++ shown ++ DQUOTE ++ " instead.")).

(** The TypeError of [arg instanceof JSHandle] under the binding the source
    has. *)
Definition instanceofTypeError : Exception :=
  Thrown (mkError ClassTypeError
            "Right-hand side of 'instanceof' is not an object").

Definition symbolInterpolationError : Exception :=
  Thrown (mkError ClassTypeError "Cannot convert a Symbol value to a string").

(** An optional property that is present and holds the non-empty text [t]:
    what the truthiness tests of the source let through. *)
Definition carries (o : option string) (t : string) : Prop :=
  o = Some t /\ t <> EmptyString.

(** An optional property that is absent, or present and empty. *)
Definition lacks (o : option string) : Prop :=
  o = None \/ o = Some EmptyString.

Definition isDecimalDigit (c : ascii) : bool :=
  let n := nat_of_ascii c in ((48 <=? n) && (n <=? 57))%nat.

Definition isNotLetterN (c : ascii) : bool := negb (Ascii.eqb c "n").

Definition isNotLF (c : ascii) : bool := negb (Ascii.eqb c LF).

(** The number of properties a [CallArgument] has. *)
Definition populatedFields (a : CallArgument) : nat :=
  match CallArgument.value a with Some _ => 1 | None => 0 end
  + match CallArgument.unserializableValue a with Some _ => 1 | None => 0 end
  + match CallArgument.objectId a with Some _ => 1 | None => 0 end.

Definition plainValue (v : JSValue) : CallArgument :=
  CallArgument.mk (Some v) None None.

Definition unserializable (tag : string) : CallArgument :=
  CallArgument.mk None (Some tag) None.

Definition isBigInt (v : JSValue) : bool :=
  match v with
  | VBigInt _ => true
  | _ => false
  end.

Definition isHandle (v : JSValue) : bool :=
  match v with
  | VHandle _ => true
  | _ => false
  end.

(** One of the four numbers that have a tag of their own. *)
Definition isSentinel (v : JSValue) : bool :=
  Object_is v negZero || Object_is v Infinity
  || Object_is v negInfinity || Object_is v NaN.

(** A value [convertArgument] gets past the [instanceof] test with, or
    never takes there: a big integer, one of the four sentinels, or a falsy
    value. *)
Definition marshallable (v : JSValue) : bool :=
  isBigInt v || isSentinel v || negb (ToBoolean v).

(** A handle whose disposed flag is set. *)
Definition isDisposedHandle (v : JSValue) : bool :=
  match v with
  | VHandle h => JSHandle._disposed h
  | _ => false
  end.

(** The one repair of a callable's text, in the words of the
    specification: [function ] goes right after a leading [async ], or else
    in front. *)
Definition repaired (text : string) : string :=
  if prefix "async " text
  then "async " ++ "function " ++ substringFrom 6 text
  else "function " ++ text.

(** The text parses once wrapped in parentheses. *)
Definition parses (host : Host) (text : string) : bool :=
  functionConstructorAccepts host ("(" ++ text ++ ")").

Definition marker : string := "//# sourceURL=__puppeteer_evaluation_script__".

(** The last character of [s], or [prev] when [s] is empty. *)
Fixpoint lastChar (prev : option ascii) (s : string) : option ascii :=
  match s with
  | EmptyString => prev
  | String c s' => lastChar (Some c) s'
  end.

(** The source-URL pattern in the words of the specification: somewhere a
    line starts with blanks or tabs, then [//@] or [//#], then
    [ sourceURL=], then a run without white space between two runs of white
    space, up to the end of a line. *)
Definition hasSourceUrlComment (s : string) : Prop :=
  exists before blanks c ws1 url ws2 after,
    s = before ++ blanks ++ "//" ++ String c " sourceURL=" ++ ws1 ++ url ++ ws2 ++ after
    /\ atLineStart (lastChar None before) = true
    /\ every isBlankOrTab blanks = true
    /\ isAtOrHash c = true
    /\ every isWhiteSpace ws1 = true
    /\ every isNonWhiteSpace url = true
    /\ every isWhiteSpace ws2 = true
    /\ atLineEnd after = true.

(** The argument as the remote side reports it back, with its [type]. *)
Definition reportedAs (ty : string) (a : CallArgument) : RemoteObject :=
  withType ty (asRemoteObject a).

(** Encoding a value and decoding what was encoded, read as a remote
    object through [view]. *)
Definition decodeEncoded (host : Host) (view : CallArgument -> RemoteObject)
  (v : JSValue) : Result JSValue :=
  match convertArgument v with
  | Return a => valueFromRemoteObject host (view a)
  | Throw e => Throw e
  end.

(** The text of a callable as it is transmitted: as printed when that
    parses, after the one repair when that parses, and not at all
    otherwise. *)
Definition serialized (host : Host) (text : string) : option string :=
  if parses host text then Some text
  else if parses host (repaired text) then Some (repaired text)
  else None.

(** The expression as it is transmitted. *)
Definition withSourceUrl (expression : string) : string :=
  if RegExp_test SOURCE_URL_REGEX expression
  then expression
  else expression ++ newline ++ marker.

(** What the handler around [client.send] throws for what it caught. *)
Definition rethrown (e : Exception) : Exception :=
  match e with
  | Thrown (mkError ClassTypeError msg) =>
      if prefix "Converting circular structure to JSON" msg
      then Thrown (mkError ClassTypeError
                     (msg ++ " Are you passing a nested JSHandle?"))
      else e
  | _ => e
  end.

(** What becomes of the promise that [client.send] returned. *)
Definition settle (host : Host) (frame : option JSNumber) (promise : Promise)
  : Result JSValue :=
  match match promise with
        | Resolves response => Return response
        | Rejects error => rewriteError error
        end with
  | Throw e => Throw e
  | Return response =>
      match Response.exceptionDetails response with
      | Some details => Throw (remoteException host details frame)
      | None => valueFromRemoteObject host (Response.result response)
      end
  end.

(** The argument list, empty when omitted. *)
Definition argumentList (args : option (list JSValue)) : list JSValue :=
  match args with
  | Some l => l
  | None => []
  end.

(** A transport that resolves every command with the same response. *)
Definition answering (response : Response.t) : CDPSession :=
  fun _ => SendReturns (Resolves response).

(** A host and two transports to evaluate the definitions on. Of the
    function bodies the examples use, the host accepts the four listed, as
    [new Function] does, and refuses every other; an object whose only
    property is a [toString] set to null has no conversion to a string. *)
Definition exampleHost : Host :=
  mkHost true
    (fun body =>
       existsb (String.eqb body)
         ["(x => x)";
          "(class { })";
          "(function increment(x) { return x + 1 })";
          "(async function increment(x) { return x + 1 })"])
    (fun v => match v with
              | VNull => Return "null"
              | VUndefined => Return "undefined"
              | VBoolean true => Return "true"
              | VBoolean false => Return "false"
              | VBigInt n => Return (BigInt_toString n)
              | VArray [] => Return EmptyString
              | VObject [(name, VNull)] =>
                  if String.eqb name "toString"
                  then Throw (Thrown (mkError ClassTypeError
                                "Cannot convert object to primitive value"))
                  else Return "[object Object]"
              | _ => Return "[object Object]"
              end)
    (map (fun line => mkStackFrame None (Some line) None None)).

Definition numberTwo : JSNumber := S754_finite false 1 1.

Definition answersTwo : CDPSession :=
  fun _ => SendReturns (Resolves (Response.mk None
    (RemoteObject.mk (Some "number") None (Some (VNumber numberTwo)) None
       (Some "2") None))).

Definition answersException (exception : option RemoteObject) : CDPSession :=
  fun _ => SendReturns (Resolves (Response.mk
    (Some (ExceptionDetails.mk "Uncaught" exception))
    (RemoteObject.mk (Some "undefined") None None None None None))).

(* ------------------------------------------------------------------ *)
(** ** More vocabulary for the invoker *)

Definition commandContext (c : Command) : JSNumber :=
  match c with
  | Runtime_evaluate _ contextId _ _ _ => contextId
  | Runtime_callFunctionOn _ executionContextId _ _ _ _ => executionContextId
  end.

(** The flags [returnByValue], [awaitPromise] and [userGesture] are all set. *)
Definition commandFlags (c : Command) : bool :=
  match c with
  | Runtime_evaluate _ _ a b c' => a && b && c'
  | Runtime_callFunctionOn _ _ _ a b c' => a && b && c'
  end.

(** The call gets as far as [client.send]: the program is a string, or a
    callable whose text is serializable and all of whose arguments are
    marshallable. *)
Definition reachesTransport (host : Host) (pageFunction : JSValue)
  (args : option (list JSValue)) : bool :=
  isString pageFunction
  || match pageFunction with
     | VFunction text =>
         match serialized host text with
         | Some _ => forallb marshallable (argumentList args)
         | None => false
         end
     | _ => false
     end.

(** What the caller sees of an exception that [client.send] threw before
    returning a promise: only the function invocation has a handler. *)
Definition sendFailure (pageFunction : JSValue) (e : ErrorObject) : Exception :=
  if isString pageFunction then Thrown e else rethrown (Thrown e).

(** A transport that rejects every command with the same error. *)
Definition rejecting (error : ErrorObject) : CDPSession :=
  fun _ => SendReturns (Rejects error).

(** A transport whose [send] throws the same error for every command. *)
Definition failing (error : ErrorObject) : CDPSession :=
  fun _ => SendThrows error.

(* ------------------------------------------------------------------ *)
(** ** The static file server

    [serveStatic] of the serve-static port. What it takes from Node and
    from the modules it imports is a field of [ServerHost]; what it does to
    the response is the list of [ResponseEffect]s, in order. *)

(** [fs.Stats], the two members read. *)
Module Stats.
Record t : Type := mk {
  isDirectory : bool;
  size : JSNumber
}.
End Stats.

Module Range.
Record t : Type := mk {
  start : JSNumber;
  end_ : JSNumber
}.
End Range.

(** What [parseRange] returns: a negative number, or an array of ranges
    that has a [type]. *)
Inductive ParsedRange : Type :=
| RangeFailure (code : JSNumber)
| Ranges (type : string) (ranges : list Range.t).

Module IncomingMessage.
Record t : Type := mk {
  method : option string;
  url : string;
  (** [headers.range] *)
  range : option string
}.
End IncomingMessage.

Record ServerHost : Type := mkServerHost {
  (** [new URL(url, 'http://localhost').pathname] *)
  URL_pathname : string -> Result string;
  (** [pathname.replace(new RegExp(`^${hash}`), '')], by hash then pathname *)
  removeHashPrefix : string -> string -> Result string;
  decodeURIComponent : string -> Result string;
  join : string -> string -> string;
  (** [RenderInternals.isPathInside(path, root)] *)
  isPathInside : string -> string -> bool;
  existsSync : string -> bool;
  (** [await promises.lstat(path)] *)
  lstat : string -> Result Stats.t;
  (** [RenderInternals.mimeLookup(path)]: a string, or [false] ([None]) *)
  mimeLookup : string -> option string;
  parseRange : JSNumber -> string -> ParsedRange;
  (** [getValueContentRangeHeader('bytes', size, {end, start})] *)
  getValueContentRangeHeader : string -> JSNumber -> Range.t -> string;
  (** the text a template literal interpolates for a number *)
  numberToString : JSNumber -> string
}.

Inductive HeaderValue : Type :=
| HeaderText (s : string)
| HeaderNumber (x : JSNumber).

Inductive ResponseEffect : Type :=
| SetStatusCode (code : Z)                          (* res.statusCode = code *)
| SetHeader (name : string) (value : HeaderValue)   (* res.setHeader *)
| WriteHead (code : Z)                              (* res.writeHead *)
| Write (chunk : string)                            (* res.write *)
| EndResponse                                       (* res.end() *)
| Pipe (path : string) (range : option Range.t).
    (* createReadStream(path, range).pipe(res) *)

(** [x - y] and [x + y] on numbers: binary64. *)
Definition Number_sub (x y : JSNumber) : JSNumber := SFsub 53 1024 x y.
Definition Number_add (x y : JSNumber) : JSNumber := SFadd 53 1024 x y.
Definition Number_one : JSNumber := SFone 53 1024.

(** [RenderInternals.mimeLookup(path) || 'application/octet-stream'] *)
Definition contentType (host : ServerHost) (path : string) : string :=
  match mimeLookup host path with
  | Some (String c s) => String c s
  | Some EmptyString | None => "application/octet-stream"
  end.

Definition serveStatic (host : ServerHost) (root hash : string)
  (req : IncomingMessage.t) : list ResponseEffect * Result unit :=
  if match IncomingMessage.method req with
     | Some m => negb (String.eqb m "GET") && negb (String.eqb m "HEAD")
     | None => true
     end
  then
    ([SetStatusCode 405;
      SetHeader "Allow" (HeaderText "GET, HEAD");
      SetHeader "Content-Length" (HeaderText "0");
      EndResponse],
     Return tt)
  else
  match URL_pathname host (IncomingMessage.url req) with
  | Throw e => ([], Throw e)
  | Return pathname =>
  match removeHashPrefix host hash pathname with
  | Throw e => ([], Throw e)
  | Return filename =>
  match decodeURIComponent host filename with
  | Throw e => ([], Throw e)
  | Return decoded =>
  let path := join host root decoded in
  if negb (isPathInside host path root) then
    ([WriteHead 500; Write "Not allowed to read"; EndResponse], Return tt)
  else
  let exists_ := existsSync host path in
  if negb exists_ then
    ([WriteHead 404; Write (path ++ " does not exist"); EndResponse], Return tt)
  else
  match lstat host path with
  | Throw e => ([], Throw e)
  | Return lstat =>
  let isDirectory := Stats.isDirectory lstat in
  if isDirectory then
    ([WriteHead 500; Write "Is a directory"; EndResponse], Return tt)
  else
  let hasRange :=
    truthy (IncomingMessage.range req) && truthyNumber (Stats.size lstat) in
  if negb hasRange then
    ([SetHeader "content-type" (HeaderText (contentType host path));
      SetHeader "content-length" (HeaderNumber (Stats.size lstat));
      WriteHead 200;
      Pipe path None],
     Return tt)
  else
  let range :=
    parseRange host (Stats.size lstat)
      (match IncomingMessage.range req with
       | Some header => header
       | None => EmptyString
       end) in
  let rangeNotSatisfiable :=
    ([SetStatusCode 416;
      SetHeader "Content-Range"
        (HeaderText ("bytes */" ++ numberToString host (Stats.size lstat)));
      EndResponse],
     Return tt) in
  match range with
  | RangeFailure _ => rangeNotSatisfiable
  | Ranges type ranges =>
      if String.eqb type "bytes" then
        match ranges with
        | [] =>
            ([], Throw (Thrown (mkError ClassTypeError
               "Cannot destructure property 'start' of 'range[0]' as it is undefined.")))
        | first :: _ =>
            let start := Range.start first in
            let end_ := Range.end_ first in
            ([SetHeader "content-type" (HeaderText (contentType host path));
              SetHeader "content-range"
                (HeaderText
                   (getValueContentRangeHeader host "bytes" (Stats.size lstat)
                      (Range.mk start end_)));
              SetHeader "content-length"
                (HeaderNumber (Number_add (Number_sub end_ start) Number_one));
              WriteHead 206;
              Pipe path (Some (Range.mk start end_))],
             Return tt)
        end
      else rangeNotSatisfiable
  end
  end
  end
  end
  end.

(** The request as it would be without a [Range] header. *)
Definition withoutRange (req : IncomingMessage.t) : IncomingMessage.t :=
  IncomingMessage.mk (IncomingMessage.method req) (IncomingMessage.url req) None.

Definition withMethod (m : string) (req : IncomingMessage.t) : IncomingMessage.t :=
  IncomingMessage.mk (Some m) (IncomingMessage.url req) (IncomingMessage.range req).

Definition isPipe (e : ResponseEffect) : bool :=
  match e with
  | Pipe _ _ => true
  | _ => false
  end.

Definition isEnd (e : ResponseEffect) : bool :=
  match e with
  | EndResponse => true
  | _ => false
  end.

(** The status the response goes out with: the last one set. *)
Fixpoint statusOf (effects : list ResponseEffect) : option Z :=
  match effects with
  | [] => None
  | e :: rest =>
      match statusOf rest with
      | Some code => Some code
      | None =>
          match e with
          | SetStatusCode code | WriteHead code => Some code
          | _ => None
          end
      end
  end.

(** The method is one the server answers. *)
Definition isGetOrHead (req : IncomingMessage.t) : bool :=
  match IncomingMessage.method req with
  | Some m => String.eqb m "GET" || String.eqb m "HEAD"
  | None => false
  end.

(** The file a request resolves to, when the three conversions succeed:
    [join(root, decodeURIComponent(filename))]. *)
Definition requestedPath (host : ServerHost) (root hash : string)
  (req : IncomingMessage.t) : Result string :=
  match URL_pathname host (IncomingMessage.url req) with
  | Throw e => Throw e
  | Return pathname =>
      match removeHashPrefix host hash pathname with
      | Throw e => Throw e
      | Return filename =>
          match decodeURIComponent host filename with
          | Throw e => Throw e
          | Return decoded => Return (join host root decoded)
          end
      end
  end.

(** The request is a GET or a HEAD for a regular file inside the root. *)
Definition fileFound (host : ServerHost) (root hash : string)
  (req : IncomingMessage.t) (path : string) (stats : Stats.t) : Prop :=
  isGetOrHead req = true
  /\ requestedPath host root hash req = Return path
  /\ isPathInside host path root = true
  /\ existsSync host path = true
  /\ lstat host path = Return stats
  /\ Stats.isDirectory stats = false.

Definition methodNotAllowed : list ResponseEffect :=
  [SetStatusCode 405;
   SetHeader "Allow" (HeaderText "GET, HEAD");
   SetHeader "Content-Length" (HeaderText "0");
   EndResponse].

Definition wholeFile (host : ServerHost) (path : string) (stats : Stats.t)
  : list ResponseEffect :=
  [SetHeader "content-type" (HeaderText (contentType host path));
   SetHeader "content-length" (HeaderNumber (Stats.size stats));
   WriteHead 200;
   Pipe path None].

Definition partialContent (host : ServerHost) (path : string) (stats : Stats.t)
  (first : Range.t) : list ResponseEffect :=
  [SetHeader "content-type" (HeaderText (contentType host path));
   SetHeader "content-range"
     (HeaderText (getValueContentRangeHeader host "bytes" (Stats.size stats) first));
   SetHeader "content-length"
     (HeaderNumber
        (Number_add (Number_sub (Range.end_ first) (Range.start first))
           Number_one));
   WriteHead 206;
   Pipe path (Some first)].

Definition rangeNotSatisfiable (host : ServerHost) (stats : Stats.t)
  : list ResponseEffect :=
  [SetStatusCode 416;
   SetHeader "Content-Range"
     (HeaderText ("bytes */" ++ numberToString host (Stats.size stats)));
   EndResponse].

(** The last effect of a list. *)
Definition lastEffect (effects : list ResponseEffect) : option ResponseEffect :=
  List.last (map Some effects) None.

(** A server host and a request to evaluate the definitions on: one file
    of 10 bytes, [/srv/index.html]. *)
Definition integer (n : Z) : JSNumber := binary_normalize 53 1024 n 0 false.

Definition tenBytes : JSNumber := integer 10.

Definition exampleServer : ServerHost :=
  mkServerHost
    (fun url => Return url)
    (fun _ pathname => Return pathname)
    (fun filename => Return filename)
    (fun root file => root ++ file)
    (fun path root => prefix root path)
    (fun path => String.eqb path "/srv/index.html")
    (fun _ => Return (Stats.mk false tenBytes))
    (fun _ => Some "text/html")
    (fun _ header =>
       if String.eqb header "bytes=0-4"
       then Ranges "bytes" [Range.mk posZero (integer 4)]
       else RangeFailure (integer (-1)))
    (fun _ _ _ => "bytes 0-4/10")
    (fun _ => "10").

Definition getIndex (range : option string) : IncomingMessage.t :=
  IncomingMessage.mk (Some "GET") "/index.html" range.

(* ------------------------------------------------------------------ *)
(** ** The input dragger

    The handlers of the [InputDragger] component that decide on the text
    typed into the fallback input, [onEscape] and [onBlur]. What a handler
    does is the list of [UiEffect]s, in order. *)

(** The [HTMLInputElement] behind [fallbackRef]: its [value] and what
    [checkValidity()] answers. *)
Module InputElement.
Record t : Type := mk {
  value : string;
  checkValidity : bool
}.
End InputElement.

Inductive UiEffect : Type :=
| SetInputFallback (open : bool)   (* setInputFallback(open) *)
| OnTextChange (newVal : string)   (* onTextChange?.(newVal) *)
| ReportValidity.                  (* fallbackRef.current.reportValidity() *)

Definition onEscape : list UiEffect := [SetInputFallback false].

(** [onBlur], given [fallbackRef.current] and whether an [onTextChange]
    was passed. *)
Definition onBlur (current : option InputElement.t) (hasOnTextChange : bool)
  : list UiEffect :=
  match current with
  | None => []
  | Some element =>
      let newValue := InputElement.value element in
      if String.eqb (trim newValue) EmptyString then onEscape
      else if InputElement.checkValidity element then
        ((if hasOnTextChange then [OnTextChange newValue] else [])
         ++ [SetInputFallback false])%list
      else [ReportValidity]
  end.

(* ------------------------------------------------------------------ *)
(** * Properties *)

(** ** Strings *)

Lemma append_nil_r (s : string) : s ++ EmptyString = s.
Proof. induction s as [|c s IH]; simpl; congruence. Qed.

Lemma append_assoc (a b c : string) : (a ++ b) ++ c = a ++ b ++ c.
Proof. induction a as [|x a IH]; simpl; congruence. Qed.

Lemma prefix_spec (p s : string) : prefix p s = true <-> hasPrefix s p.
Proof.
  revert s; induction p as [|c p IH]; intros s; split.
  - intros _. exists s. reflexivity.
  - intros _. destruct s; reflexivity.
  - destruct s as [|d s]; simpl; [discriminate|].
    destruct (ascii_dec c d) as [->|]; [|discriminate].
    intros H. apply IH in H. destruct H as [b ->]. exists b. reflexivity.
  - intros [b ->]. simpl.
    destruct (ascii_dec c c) as [_|]; [|congruence].
    apply IH. exists b. reflexivity.
Qed.

Lemma includes_unfold (s p : string) :
  includes s p =
  if prefix p s then true
  else match s with
       | EmptyString => false
       | String _ s' => includes s' p
       end.
Proof. destruct s; reflexivity. Qed.

Lemma includes_spec (s p : string) : includes s p = true <-> contains s p.
Proof.
  induction s as [|c s IH]; rewrite includes_unfold.
  - destruct (prefix p EmptyString) eqn:E.
    + split; [|reflexivity]. intros _.
      apply prefix_spec in E. destruct E as [b E].
      exists EmptyString, b. exact E.
    + split; [discriminate|]. intros [a [b E']].
      destruct a; [|discriminate]. simpl in E'.
      assert (prefix p EmptyString = true) by (apply prefix_spec; exists b; exact E').
      congruence.
  - destruct (prefix p (String c s)) eqn:E.
    + split; [|reflexivity]. intros _.
      apply prefix_spec in E. destruct E as [b E].
      exists EmptyString, b. exact E.
    + rewrite IH. split.
      * intros [a [b ->]]. exists (String c a), b. reflexivity.
      * intros [a [b E']]. destruct a as [|d a]; simpl in E'.
        -- assert (prefix p (String c s) = true)
             by (apply prefix_spec; exists b; exact E').
           congruence.
        -- injection E' as _ ->. exists a, b. reflexivity.
Qed.

Lemma endsWith_unfold (s p : string) :
  endsWith s p =
  if String.eqb s p then true
  else match s with
       | EmptyString => false
       | String _ s' => endsWith s' p
       end.
Proof. destruct s; reflexivity. Qed.

Lemma endsWith_spec (s p : string) : endsWith s p = true <-> hasSuffix s p.
Proof.
  induction s as [|c s IH]; rewrite endsWith_unfold.
  - destruct (String.eqb_spec EmptyString p) as [<-|N].
    + split; [|reflexivity]. intros _. exists EmptyString. reflexivity.
    + split; [discriminate|]. intros [a E]. destruct a; [|discriminate].
      simpl in E. congruence.
  - destruct (String.eqb_spec (String c s) p) as [<-|N].
    + split; [|reflexivity]. intros _. exists EmptyString. reflexivity.
    + rewrite IH. split.
      * intros [a ->]. exists (String c a). reflexivity.
      * intros [a E]. destruct a as [|d a]; simpl in E; [congruence|].
        injection E as _ ->. exists a. reflexivity.
Qed.

(* ------------------------------------------------------------------ *)
(** ** Error translation *)

Lemma benign_iff (msg : string) :
  benign msg <->
  includes msg "Object reference chain is too long"
  || includes msg "Object couldn't be returned by value" = true.
Proof.
  unfold benign. rewrite orb_true_iff, !includes_spec. reflexivity.
Qed.

Lemma contextGone_iff (msg : string) :
  contextGone msg <->
  endsWith msg "Cannot find context with specified id"
  || endsWith msg "Inspected target navigated or closed" = true.
Proof.
  unfold contextGone. rewrite orb_true_iff, !endsWith_spec. reflexivity.
Qed.

Lemma rewriteError_cases (error : ErrorObject) :
  rewriteError error =
  if includes (message error) "Object reference chain is too long"
     || includes (message error) "Object couldn't be returned by value"
  then Return undefinedResponse
  else if endsWith (message error) "Cannot find context with specified id"
          || endsWith (message error) "Inspected target navigated or closed"
  then Throw executionContextDestroyed
  else Throw (Thrown error).
Proof.
  unfold rewriteError, executionContextDestroyed.
  destruct (includes (message error) "Object reference chain is too long");
    [reflexivity|].
  destruct (includes (message error) "Object couldn't be returned by value");
    reflexivity.
Qed.

(** C3, as stated, fails: a message that ends with "Cannot find context
    with specified id" and also contains "Object reference chain is too
    long" is turned into the empty success, not into the
    execution-context-destroyed error. *)
Lemma rewriteError_suffix_behind_benign_phrase :
  let msg :=
    "Object reference chain is too long; Cannot find context with specified id" in
  endsWith msg "Cannot find context with specified id" = true
  /\ rewriteError (newError msg) = Return undefinedResponse
  /\ rewriteError (newError msg) <> Throw executionContextDestroyed.
Proof.
  cbv zeta. split; [reflexivity|]. split; [reflexivity|].
  intros H. vm_compute in H. discriminate H.
Qed.

(** C3 (amended): error translation is a total classification with three
    outcomes, decided in this order. A transport error whose message
    contains the reference-chain-too-long phrase or the value-not-returnable
    phrase becomes the empty success, which decodes to undefined. Otherwise,
    one whose message ends with "Cannot find context with specified id" or
    with "Inspected target navigated or closed" is replaced by the canonical
    execution-context-destroyed error. Every other transport error is
    re-raised unchanged. *)
Theorem rewriteError_classification (host : Host) (error : ErrorObject) :
  (benign (message error) ->
     rewriteError error = Return undefinedResponse)
  /\ (~ benign (message error) -> contextGone (message error) ->
     rewriteError error = Throw executionContextDestroyed)
  /\ (~ benign (message error) -> ~ contextGone (message error) ->
     rewriteError error = Throw (Thrown error))
  /\ (rewriteError error = Return undefinedResponse
      \/ rewriteError error = Throw executionContextDestroyed
      \/ rewriteError error = Throw (Thrown error))
  /\ Response.exceptionDetails undefinedResponse = None
  /\ valueFromRemoteObject host (Response.result undefinedResponse)
     = Return VUndefined.
Proof.
  rewrite rewriteError_cases.
  pose proof (benign_iff (message error)) as B.
  pose proof (contextGone_iff (message error)) as G.
  destruct (includes (message error) "Object reference chain is too long"
            || includes (message error) "Object couldn't be returned by value").
  - repeat split; auto.
    + intros N. exfalso. apply N, B. reflexivity.
    + intros N. exfalso. apply N, B. reflexivity.
  - assert (NB : ~ benign (message error)) by (rewrite B; discriminate).
    destruct (endsWith (message error) "Cannot find context with specified id"
              || endsWith (message error) "Inspected target navigated or closed").
    + repeat split; auto.
      * intros H. contradiction.
      * intros _ N. exfalso. apply N, G. reflexivity.
    + assert (NG : ~ contextGone (message error)) by (rewrite G; discriminate).
      repeat split; auto.
      * intros H. contradiction.
      * intros _ H. contradiction.
Qed.

Lemma rewriteError_classification_witness :
  rewriteError (newError "Protocol error: Object reference chain is too long")
  = Return undefinedResponse
  /\ rewriteError
       (newError "Protocol error (Runtime.callFunctionOn): Cannot find context with specified id")
     = Throw executionContextDestroyed
  /\ rewriteError (newError "Session closed.")
     = Throw (Thrown (newError "Session closed.")).
Proof.
  split; [|split].
  - apply (rewriteError_classification exampleHost
             (newError "Protocol error: Object reference chain is too long")).
    apply benign_iff. reflexivity.
  - apply (rewriteError_classification exampleHost
             (newError "Protocol error (Runtime.callFunctionOn): Cannot find context with specified id")).
    + intros H. apply benign_iff in H. vm_compute in H. discriminate H.
    + apply contextGone_iff. reflexivity.
  - apply (rewriteError_classification exampleHost (newError "Session closed.")).
    + intros H. apply benign_iff in H. vm_compute in H. discriminate H.
    + intros H. apply contextGone_iff in H. vm_compute in H. discriminate H.
Defined.

(* ------------------------------------------------------------------ *)
(** ** Big integers as text *)

Lemma every_weaken (p q : ascii -> bool) (s : string) :
  (forall c, p c = true -> q c = true) ->
  every p s = true -> every q s = true.
Proof.
  intros W. induction s as [|c s IH]; simpl; [reflexivity|].
  rewrite !andb_true_iff. intros [H1 H2]. auto.
Qed.

Lemma every_append (p : ascii -> bool) (a b : string) :
  every p (a ++ b) = every p a && every p b.
Proof.
  induction a as [|c a IH]; simpl; [reflexivity|].
  rewrite IH. apply andb_assoc.
Qed.

Lemma digit_not_white (c : ascii) :
  isDecimalDigit c = true -> isNonWhiteSpace c = true.
Proof.
  destruct c as [[] [] [] [] [] [] [] []]; intros H;
    solve [reflexivity | discriminate H].
Qed.

Lemma digit_not_n (c : ascii) :
  isDecimalDigit c = true -> isNotLetterN c = true.
Proof.
  destruct c as [[] [] [] [] [] [] [] []]; intros H;
    solve [reflexivity | discriminate H].
Qed.

Lemma string_of_uint_digits (d : Decimal.uint) :
  every isDecimalDigit (NilEmpty.string_of_uint d) = true.
Proof. induction d; simpl; auto. Qed.

Lemma trimStart_nonwhite (s : string) :
  every isNonWhiteSpace s = true -> trimStart s = s.
Proof.
  destruct s as [|c s]; simpl; [reflexivity|].
  unfold isNonWhiteSpace. destruct (isWhiteSpace c); [discriminate|reflexivity].
Qed.

Lemma trimEnd_nonwhite (s : string) :
  every isNonWhiteSpace s = true -> trimEnd s = s.
Proof.
  induction s as [|c s IH]; simpl; [reflexivity|].
  rewrite andb_true_iff. intros [Hc Hs]. rewrite (IH Hs).
  destruct s; [|reflexivity].
  unfold isNonWhiteSpace in Hc. destruct (isWhiteSpace c); [discriminate|reflexivity].
Qed.

Lemma trim_nonwhite (s : string) :
  every isNonWhiteSpace s = true -> trim s = s.
Proof.
  intros H. unfold trim. rewrite (trimStart_nonwhite s H).
  apply trimEnd_nonwhite, H.
Qed.

Lemma replaceFirst_trailing_n (s : string) :
  every isNotLetterN s = true ->
  replaceFirst (s ++ "n") "n" EmptyString = s.
Proof.
  induction s as [|c s IH]; [reflexivity|].
  simpl every. rewrite andb_true_iff. intros [Hc Hs].
  cbn [append replaceFirst prefix].
  destruct (ascii_dec "n" c) as [<-|N]; [discriminate Hc|].
  rewrite (IH Hs). reflexivity.
Qed.

(** One step of [parseDigitsAcc] on a digit that is known: its value is
    computed and the test against the radix decided. *)
Ltac read_digit :=
  cbn [NilEmpty.string_of_uint parseDigitsAcc Pos.of_uint_acc Pos.of_uint];
  match goal with
  | |- context [digitValue ?c] =>
      let v := eval vm_compute in (digitValue c) in
      change (digitValue c) with v
  end;
  cbv iota; change (_ <? 10)%Z with true; cbv iota.

Lemma parseDigitsAcc_uint_acc (d : Decimal.uint) (acc : positive) :
  parseDigitsAcc 10 (NilEmpty.string_of_uint d) (Zpos acc)
  = Some (Zpos (Pos.of_uint_acc d acc)).
Proof.
  revert acc. induction d; intros acc; [reflexivity|..];
    read_digit; rewrite <- IHd; f_equal; try lia.
Qed.

Lemma parseDigitsAcc_uint (d : Decimal.uint) :
  parseDigitsAcc 10 (NilEmpty.string_of_uint d) 0
  = Some (Z.of_N (Pos.of_uint d)).
Proof.
  induction d; [reflexivity| |..]; read_digit;
    [exact IHd | apply parseDigitsAcc_uint_acc ..].
Qed.

Lemma string_of_uint_nonwhite (d : Decimal.uint) :
  every isNonWhiteSpace (NilEmpty.string_of_uint d) = true.
Proof.
  apply (every_weaken isDecimalDigit); [apply digit_not_white|].
  apply string_of_uint_digits.
Qed.

Lemma string_of_uint_no_n (d : Decimal.uint) :
  every isNotLetterN (NilEmpty.string_of_uint d) = true.
Proof.
  apply (every_weaken isDecimalDigit); [apply digit_not_n|].
  apply string_of_uint_digits.
Qed.

Lemma StringToBigInt_uint (d : Decimal.uint) :
  d <> Decimal.Nil ->
  StringToBigInt (NilEmpty.string_of_uint d) = Some (Z.of_N (Pos.of_uint d)).
Proof.
  intros N. unfold StringToBigInt.
  rewrite (trim_nonwhite _ (string_of_uint_nonwhite d)).
  rewrite <- parseDigitsAcc_uint.
  destruct d as [|d|d|d|d|d|d|d|d|d|d]; [contradiction|..]; try reflexivity.
  destruct d; reflexivity.
Qed.

Lemma StringToBigInt_minus (s : string) :
  every isNonWhiteSpace s = true ->
  StringToBigInt (String "-" s) = option_map Z.opp (parseDigits 10 s).
Proof.
  intros H. unfold StringToBigInt.
  rewrite trim_nonwhite; [reflexivity|].
  simpl. exact H.
Qed.

Lemma string_of_pos (p : positive) :
  NilZero.string_of_uint (Pos.to_uint p) = NilEmpty.string_of_uint (Pos.to_uint p)
  /\ Pos.to_uint p <> Decimal.Nil.
Proof.
  pose proof (Unsigned.to_uint_nonnil p) as N.
  split; [|exact N].
  destruct (Pos.to_uint p); [contradiction|reflexivity..].
Qed.

(** Parsing the decimal text of a big integer gives the integer back. *)
Lemma StringToBigInt_toString (n : Z) :
  StringToBigInt (BigInt_toString n) = Some n.
Proof.
  destruct n as [|p|p]; [reflexivity| |]; unfold BigInt_toString; simpl;
    destruct (string_of_pos p) as [-> N].
  - rewrite (StringToBigInt_uint _ N), Unsigned.of_to. reflexivity.
  - rewrite StringToBigInt_minus by apply string_of_uint_nonwhite.
    pose proof (parseDigitsAcc_uint (Pos.to_uint p)) as P.
    rewrite Unsigned.of_to in P.
    destruct (Pos.to_uint p); [contradiction|..];
      unfold parseDigits; rewrite P; reflexivity.
Qed.

Lemma BigInt_toString_no_n (n : Z) :
  every isNotLetterN (BigInt_toString n) = true.
Proof.
  destruct n as [|p|p]; [reflexivity| |]; unfold BigInt_toString; simpl;
    destruct (string_of_pos p) as [-> _]; simpl;
    apply string_of_uint_no_n.
Qed.

(** The tag of a big integer decodes to it: the first [n] of the tag is the
    one appended after the digits. *)
Lemma BigInt_of_tag (n : Z) :
  BigInt (replaceFirst (BigInt_toString n ++ "n") "n" EmptyString)
  = Return (VBigInt n).
Proof.
  rewrite replaceFirst_trailing_n by apply BigInt_toString_no_n.
  unfold BigInt. rewrite StringToBigInt_toString. reflexivity.
Qed.

Lemma BigInt_toString_nonempty (n : Z) :
  exists c s, BigInt_toString n = String c s.
Proof.
  destruct n as [|p|p]; unfold BigInt_toString; simpl.
  - exists "0"%char, EmptyString. reflexivity.
  - destruct (string_of_pos p) as [-> N].
    destruct (Pos.to_uint p); [contradiction|..]; simpl; eauto.
  - eauto.
Qed.

(* ------------------------------------------------------------------ *)
(** ** Marshalling of arguments *)

Lemma sameNumber_eq (x y : JSNumber) : sameNumber x y = true <-> x = y.
Proof.
  destruct x as [s|s| |s m e], y as [s'|s'| |s' m' e']; simpl;
    try (split; [discriminate|discriminate]).
  - rewrite Bool.eqb_true_iff. split; congruence.
  - rewrite Bool.eqb_true_iff. split; congruence.
  - split; reflexivity.
  - rewrite !andb_true_iff, Bool.eqb_true_iff, Pos.eqb_eq, Z.eqb_eq.
    split; [intros [[-> ->] ->]; reflexivity|]. intros H. injection H. auto.
Qed.

(** Past the big integers and the sentinels, [convertArgument] goes by the
    truthiness of the value: a falsy value never meets [instanceof], a
    truthy one meets it with nothing on its right-hand side. *)
Lemma convertArgument_past_sentinels (v : JSValue) :
  isBigInt v = false -> isSentinel v = false ->
  convertArgument v =
  if ToBoolean v then Throw instanceofTypeError else Return (plainValue v).
Proof.
  unfold isSentinel. rewrite !orb_false_iff.
  intros B [[[S1 S2] S3] S4].
  destruct v; try discriminate B; unfold convertArgument;
    try rewrite S1, S2, S3, S4;
    cbn [Object_is]; cbv iota;
    destruct (ToBoolean _); reflexivity.
Qed.

Lemma convertArgument_plain (v : JSValue) :
  isBigInt v = false -> isSentinel v = false -> ToBoolean v = false ->
  convertArgument v = Return (plainValue v).
Proof.
  intros B S T. rewrite (convertArgument_past_sentinels v B S), T. reflexivity.
Qed.

Lemma convertArgument_truthy (v : JSValue) :
  isBigInt v = false -> isSentinel v = false -> ToBoolean v = true ->
  convertArgument v = Throw instanceofTypeError.
Proof.
  intros B S T. rewrite (convertArgument_past_sentinels v B S), T. reflexivity.
Qed.

Lemma convertArgument_sentinel (v : JSValue) :
  isSentinel v = true ->
  convertArgument v = Return (unserializable "-0")
  \/ convertArgument v = Return (unserializable "Infinity")
  \/ convertArgument v = Return (unserializable "-Infinity")
  \/ convertArgument v = Return (unserializable "NaN").
Proof.
  unfold isSentinel. destruct v; try discriminate. cbn [Object_is].
  unfold convertArgument. cbn [Object_is].
  destruct (sameNumber x negZero); [auto|].
  destruct (sameNumber x Infinity); [auto|].
  destruct (sameNumber x negInfinity); [auto|].
  destruct (sameNumber x NaN); [auto|discriminate].
Qed.

Lemma marshallable_cases (v : JSValue) :
  (marshallable v = true /\
   ((exists n, v = VBigInt n) \/ isSentinel v = true
    \/ (isBigInt v = false /\ isSentinel v = false /\ ToBoolean v = false)))
  \/ (marshallable v = false
      /\ isBigInt v = false /\ isSentinel v = false /\ ToBoolean v = true).
Proof.
  unfold marshallable.
  destruct (isBigInt v) eqn:B.
  - left. split; [reflexivity|]. left. destruct v; try discriminate B. eauto.
  - destruct (isSentinel v) eqn:S.
    + left. split; [reflexivity|]. auto.
    + destruct (ToBoolean v) eqn:T.
      * right. auto.
      * left. split; [reflexivity|]. auto.
Qed.

Lemma convertArgument_unmarshallable (v : JSValue) :
  marshallable v = false -> convertArgument v = Throw instanceofTypeError.
Proof.
  intros M. destruct (marshallable_cases v) as [[M' _]|[_ [B [S T]]]];
    [congruence|].
  apply convertArgument_truthy; assumption.
Qed.

Lemma convertArgument_marshallable (v : JSValue) :
  marshallable v = true ->
  exists a, convertArgument v = Return a
            /\ CallArgument.objectId a = None
            /\ populatedFields a = 1.
Proof.
  intros M.
  destruct (marshallable_cases v) as [[_ [[n ->]|[S|[B [S T]]]]]|[M' _]];
    [| | |congruence].
  - eexists. split; [reflexivity|]. split; reflexivity.
  - destruct (convertArgument_sentinel v S) as [E|[E|[E|E]]]; rewrite E;
      eexists; (split; [reflexivity|]); split; reflexivity.
  - rewrite (convertArgument_plain v B S T).
    eexists. split; [reflexivity|]. split; reflexivity.
Qed.

(** C2, as the code behaves: a finite number other than zero, and every
    other truthy value that is not a handle, is not forwarded in the value
    field. The test [arg instanceof JSHandle] has nothing on its right-hand
    side, and [convertArgument] raises the TypeError of [instanceof] for
    the number 2, a text, a boolean and a plain object. *)
Theorem convertArgument_rejects_plain_values :
  convertArgument (VNumber numberTwo) = Throw instanceofTypeError
  /\ convertArgument (VString "two") = Throw instanceofTypeError
  /\ convertArgument (VBoolean true) = Throw instanceofTypeError
  /\ convertArgument (VObject [("two", VNumber numberTwo)])
     = Throw instanceofTypeError.
Proof. repeat split. Qed.

Lemma truthy_carries (o : option string) :
  truthy o = true <-> exists t, carries o t.
Proof.
  unfold carries. destruct o as [[|c s]|]; simpl; split;
    try discriminate; try reflexivity.
  - intros [t [E N]]. injection E as <-. contradiction.
  - intros _. exists (String c s). split; [reflexivity|discriminate].
  - intros [t [E _]]. discriminate.
Qed.

Lemma truthy_lacks (o : option string) : truthy o = false <-> lacks o.
Proof.
  unfold lacks. destruct o as [[|c s]|]; simpl; split; auto;
    try discriminate.
  intros [H|H]; discriminate.
Qed.

(** C9, as the code behaves: no handle is marshalled at all. A handle is an
    object, hence truthy; [arg instanceof JSHandle] is evaluated with
    nothing on its right-hand side and raises a TypeError before the
    disposed flag, the tag, the value or the object identifier of the
    handle is read. *)
Theorem convertArgument_handle_throws (h : JSHandle) :
  convertArgument (VHandle h) = Throw instanceofTypeError.
Proof. reflexivity. Qed.

(* ------------------------------------------------------------------ *)
(** ** Decoding of results *)

Lemma valueFromRemoteObject_carried (host : Host) (r : RemoteObject) (tag : string) :
  carries (RemoteObject.unserializableValue r) tag ->
  valueFromRemoteObject host r =
  if match RemoteObject.type r with
     | Some ty => String.eqb ty "bigint"
     | None => false
     end && hasBigInt host
  then BigInt (replaceFirst tag "n" EmptyString)
  else if String.eqb tag "-0" then Return (VNumber negZero)
  else if String.eqb tag "NaN" then Return (VNumber NaN)
  else if String.eqb tag "Infinity" then Return (VNumber Infinity)
  else if String.eqb tag "-Infinity" then Return (VNumber negInfinity)
  else Throw (unsupportedUnserializableValue tag).
Proof.
  intros C. unfold valueFromRemoteObject.
  assert (T : truthy (RemoteObject.unserializableValue r) = true)
    by (apply truthy_carries; eauto).
  rewrite T. destruct C as [-> _]. reflexivity.
Qed.

Lemma bigint_type_test (r : RemoteObject) :
  match RemoteObject.type r with
  | Some ty => String.eqb ty "bigint"
  | None => false
  end = true <-> RemoteObject.type r = Some "bigint".
Proof.
  destruct (RemoteObject.type r) as [ty|].
  - rewrite String.eqb_eq. split; congruence.
  - split; discriminate.
Qed.

(** C4, as stated, fails: the decoder goes by the [type] field, not by the
    shape of the tag. A response tagged 5n whose type is not bigint raises
    the unsupported-value error instead of yielding the big integer 5; a
    response whose type is bigint is handed to [BigInt] whatever its tag,
    so the tag -0 yields the big integer 0 and an unknown tag raises a
    SyntaxError. *)
Lemma valueFromRemoteObject_goes_by_type :
  valueFromRemoteObject exampleHost
    (RemoteObject.mk (Some "number") None None (Some "5n") None None)
  = Throw (unsupportedUnserializableValue "5n")
  /\ valueFromRemoteObject exampleHost
       (RemoteObject.mk (Some "number") None None (Some "5n") None None)
     <> Return (VBigInt 5)
  /\ valueFromRemoteObject exampleHost
       (RemoteObject.mk (Some "bigint") None None (Some "-0") None None)
     = Return (VBigInt 0)
  /\ valueFromRemoteObject exampleHost
       (RemoteObject.mk (Some "bigint") None None (Some "seven") None None)
     = Throw (Thrown (mkError ClassSyntaxError "Cannot convert seve to a BigInt")).
Proof.
  split; [reflexivity|]. split; [|split; reflexivity].
  intros H. vm_compute in H. discriminate H.
Qed.

(** C4 (amended): for every response that carries an unserializable-value
    tag, the decoder goes by the response's type. When the type is bigint
    (and the host has [BigInt]) the tag without its first n is parsed as a
    big integer, so that the decimal digits of an integer followed by n
    yield that integer. Otherwise the tags -0, NaN, Infinity and -Infinity
    yield the corresponding sentinel values and any other tag raises the
    unsupported-unserializable-value error. *)
Theorem valueFromRemoteObject_tagged
  (host : Host) (r : RemoteObject) (tag : string) :
  carries (RemoteObject.unserializableValue r) tag ->
  (RemoteObject.type r = Some "bigint" -> hasBigInt host = true ->
     valueFromRemoteObject host r = BigInt (replaceFirst tag "n" EmptyString)
     /\ forall n : Z, tag = BigInt_toString n ++ "n" ->
          valueFromRemoteObject host r = Return (VBigInt n))
  /\ (RemoteObject.type r <> Some "bigint" \/ hasBigInt host = false ->
      (tag = "-0" -> valueFromRemoteObject host r = Return (VNumber negZero))
      /\ (tag = "NaN" -> valueFromRemoteObject host r = Return (VNumber NaN))
      /\ (tag = "Infinity" ->
          valueFromRemoteObject host r = Return (VNumber Infinity))
      /\ (tag = "-Infinity" ->
          valueFromRemoteObject host r = Return (VNumber negInfinity))
      /\ (tag <> "-0" -> tag <> "NaN" -> tag <> "Infinity" ->
          tag <> "-Infinity" ->
          valueFromRemoteObject host r
          = Throw (unsupportedUnserializableValue tag))).
Proof.
  intros C. rewrite (valueFromRemoteObject_carried host r tag C).
  pose proof (bigint_type_test r) as Ty. split.
  - intros E B. apply Ty in E. rewrite E, B. cbn [andb].
    split; [reflexivity|]. intros n ->. apply BigInt_of_tag.
  - intros O.
    assert (G : match RemoteObject.type r with
                | Some ty => String.eqb ty "bigint"
                | None => false
                end && hasBigInt host = false).
    { apply andb_false_iff. destruct O as [O|O]; [left|right; exact O].
      destruct (match RemoteObject.type r with
                | Some ty => String.eqb ty "bigint"
                | None => false
                end); [|reflexivity].
      exfalso. apply O, Ty. reflexivity. }
    rewrite G. repeat split.
    + intros ->. reflexivity.
    + intros ->. reflexivity.
    + intros ->. reflexivity.
    + intros ->. reflexivity.
    + intros N1 N2 N3 N4.
      apply String.eqb_neq in N1, N2, N3, N4.
      rewrite N1, N2, N3, N4. reflexivity.
Qed.

Lemma valueFromRemoteObject_tagged_witness :
  valueFromRemoteObject exampleHost
    (RemoteObject.mk (Some "bigint") None None (Some "-45n") (Some "-45n") None)
  = Return (VBigInt (-45))
  /\ valueFromRemoteObject exampleHost
       (RemoteObject.mk (Some "number") None None (Some "-0") (Some "-0") None)
     = Return (VNumber negZero)
  /\ valueFromRemoteObject exampleHost
       (RemoteObject.mk (Some "number") None None (Some "1e999") None None)
     = Throw (unsupportedUnserializableValue "1e999").
Proof.
  split; [|split].
  - apply (valueFromRemoteObject_tagged exampleHost
             (RemoteObject.mk (Some "bigint") None None (Some "-45n")
                (Some "-45n") None) "-45n");
      [split; [reflexivity|discriminate] | reflexivity | reflexivity
      | reflexivity].
  - apply (valueFromRemoteObject_tagged exampleHost
             (RemoteObject.mk (Some "number") None None (Some "-0")
                (Some "-0") None) "-0");
      [split; [reflexivity|discriminate] | left; discriminate | reflexivity].
  - apply (valueFromRemoteObject_tagged exampleHost
             (RemoteObject.mk (Some "number") None None (Some "1e999")
                None None) "1e999");
      [split; [reflexivity|discriminate] | left; discriminate
      | discriminate ..].
Defined.

(* ------------------------------------------------------------------ *)
(** ** Round trip of the marshalling *)

Lemma lastChar_snoc (prev : option ascii) (s : string) (c : ascii) :
  lastChar prev (s ++ String c EmptyString) = Some c.
Proof.
  revert prev. induction s as [|d s IH]; intros prev; [reflexivity|].
  apply IH.
Qed.

(** The tag of a big integer is none of the four sentinel tags, and not
    empty. *)
Lemma bigint_tag_is_no_sentinel (n : Z) :
  let tag := BigInt_toString n ++ "n" in
  truthy (Some tag) = true
  /\ String.eqb tag "-0" = false /\ String.eqb tag "NaN" = false
  /\ String.eqb tag "Infinity" = false /\ String.eqb tag "-Infinity" = false.
Proof.
  intros tag.
  assert (L : lastChar None tag = Some "n"%char) by apply lastChar_snoc.
  split.
  - destruct (BigInt_toString_nonempty n) as [c [s E]].
    unfold tag. rewrite E. reflexivity.
  - repeat split; apply String.eqb_neq; intros E; rewrite E in L;
      discriminate L.
Qed.

Lemma decode_bigint_argument (host : Host) (n : Z) :
  decodeEncoded host asRemoteObject (VBigInt n)
  = Throw (unsupportedUnserializableValue (BigInt_toString n ++ "n")).
Proof.
  destruct (bigint_tag_is_no_sentinel n) as (T & E1 & E2 & E3 & E4).
  unfold decodeEncoded. cbn [convertArgument].
  unfold valueFromRemoteObject, asRemoteObject.
  cbn [RemoteObject.unserializableValue RemoteObject.type
       CallArgument.unserializableValue andb].
  rewrite T, E1, E2, E3, E4. reflexivity.
Qed.

(** C1, as stated, fails for big integers: the argument that
    [convertArgument] builds for the big integer 5 has no [type], and
    [valueFromRemoteObject] applied to it raises the
    unsupported-unserializable-value error instead of returning 5. *)
Lemma bigint_argument_decodes_to_error :
  convertArgument (VBigInt 5) = Return (unserializable "5n")
  /\ decodeEncoded exampleHost asRemoteObject (VBigInt 5)
     = Throw (unsupportedUnserializableValue "5n")
  /\ decodeEncoded exampleHost asRemoteObject (VBigInt 5) <> Return (VBigInt 5).
Proof.
  split; [reflexivity|]. split; [reflexivity|].
  intros H. vm_compute in H. discriminate H.
Qed.

(** C1 (amended): decoding what was encoded gives the original value back
    for negative zero, NaN, Infinity and -Infinity, whose four tags are
    distinct, with -0 recovered as distinguishable from +0; this holds for
    the argument read as it is and for the argument reported back under any
    type other than bigint. For every big integer n the tag is the decimal
    digits of n followed by n; decoding gives n back when the argument is
    reported back with the type bigint (on a host that has [BigInt]), and
    raises the unsupported-unserializable-value error when the argument is
    decoded as it is, without a type. A plain value field decodes to the
    value it holds, a finite number included, and positive zero is encoded
    in the plain value field and decodes to itself. *)
Theorem marshalling_round_trip (host : Host) :
  (forall x : JSNumber, In x [negZero; NaN; Infinity; negInfinity] ->
     decodeEncoded host asRemoteObject (VNumber x) = Return (VNumber x)
     /\ forall ty, ty <> "bigint" ->
          decodeEncoded host (reportedAs ty) (VNumber x) = Return (VNumber x))
  /\ NoDup ["-0"; "NaN"; "Infinity"; "-Infinity"]
  /\ (VNumber negZero <> VNumber posZero
      /\ Object_is (VNumber negZero) posZero = false)
  /\ (forall n : Z,
        convertArgument (VBigInt n)
        = Return (unserializable (BigInt_toString n ++ "n"))
        /\ (hasBigInt host = true ->
            decodeEncoded host (reportedAs "bigint") (VBigInt n)
            = Return (VBigInt n))
        /\ decodeEncoded host asRemoteObject (VBigInt n)
           = Throw (unsupportedUnserializableValue (BigInt_toString n ++ "n")))
  /\ (forall v : JSValue,
        valueFromRemoteObject host (asRemoteObject (plainValue v)) = Return v
        /\ forall ty,
             valueFromRemoteObject host (reportedAs ty (plainValue v))
             = Return v)
  /\ (convertArgument (VNumber posZero) = Return (plainValue (VNumber posZero))
      /\ decodeEncoded host asRemoteObject (VNumber posZero)
         = Return (VNumber posZero)).
Proof.
  split; [|split; [|split; [|split; [|split]]]].
  - intros x H. simpl in H.
    destruct H as [<-|[<-|[<-|[<-|[]]]]]; (split; [reflexivity|]);
      intros ty N; unfold decodeEncoded; cbn [convertArgument Object_is];
      cbv beta iota; cbn -[String.eqb];
      unfold valueFromRemoteObject; cbn -[String.eqb];
      rewrite (proj2 (String.eqb_neq ty "bigint") N); reflexivity.
  - repeat constructor; simpl; intuition discriminate.
  - split; [discriminate|reflexivity].
  - intros n. split; [reflexivity|]. split; [|apply decode_bigint_argument].
    intros B. unfold decodeEncoded. cbn [convertArgument].
    destruct (bigint_tag_is_no_sentinel n) as (T & _).
    unfold valueFromRemoteObject, reportedAs, withType, asRemoteObject,
      unserializable.
    cbn [RemoteObject.unserializableValue RemoteObject.type
         CallArgument.unserializableValue].
    rewrite B, T.
    rewrite String.eqb_refl. cbn [andb]. apply BigInt_of_tag.
  - intros v. split; [reflexivity|]. intros ty. reflexivity.
  - split; reflexivity.
Qed.

Lemma marshalling_round_trip_witness :
  decodeEncoded exampleHost asRemoteObject (VNumber negZero)
  = Return (VNumber negZero)
  /\ decodeEncoded exampleHost (reportedAs "number") (VNumber NaN)
     = Return (VNumber NaN)
  /\ decodeEncoded exampleHost (reportedAs "bigint") (VBigInt (-45))
     = Return (VBigInt (-45))
  /\ valueFromRemoteObject exampleHost
       (asRemoteObject (plainValue (VNumber numberTwo)))
     = Return (VNumber numberTwo).
Proof.
  destruct (marshalling_round_trip exampleHost)
    as (Sentinel & _ & _ & Big & Finite & _).
  split; [|split; [|split]].
  - apply (Sentinel negZero). simpl. auto.
  - apply (Sentinel NaN); [simpl; auto|discriminate].
  - apply (Big (-45)%Z). reflexivity.
  - apply (Finite (VNumber numberTwo)).
Defined.

(* ------------------------------------------------------------------ *)
(** ** The source-URL pattern, atom by atom *)

Lemma lastChar_append (prev : option ascii) (a b : string) :
  lastChar prev (a ++ b) = lastChar (lastChar prev a) b.
Proof.
  revert prev. induction a as [|c a IH]; intros prev; simpl; [reflexivity|].
  apply IH.
Qed.

Lemma matchesAt_lineStart (rest : list Atom) (prev : option ascii) (s : string) :
  matchesAt (LineStart :: rest) prev s = true
  <-> atLineStart prev = true /\ matchesAt rest prev s = true.
Proof. cbn [matchesAt]. apply andb_true_iff. Qed.

Lemma matchesAt_lineEnd (prev : option ascii) (s : string) :
  matchesAt [LineEnd] prev s = true <-> atLineEnd s = true.
Proof. cbn [matchesAt]. rewrite andb_true_r. reflexivity. Qed.

Lemma matchesAt_class (p : ascii -> bool) (rest : list Atom)
  (prev : option ascii) (s : string) :
  matchesAt (Class p :: rest) prev s = true
  <-> exists c s', s = String c s' /\ p c = true
                   /\ matchesAt rest (Some c) s' = true.
Proof.
  cbn [matchesAt]. destruct s as [|c s'].
  - split; [discriminate|]. intros [c [s' [E _]]]. discriminate.
  - rewrite andb_true_iff. split.
    + intros [P M]. exists c, s'. auto.
    + intros [c' [s'' [E [P M]]]]. injection E as -> ->. auto.
Qed.

Lemma matchesAt_literal (t : string) (rest : list Atom)
  (prev : option ascii) (s : string) :
  matchesAt (literal t ++ rest)%list prev s = true
  <-> exists s', s = t ++ s' /\ matchesAt rest (lastChar prev t) s' = true.
Proof.
  revert prev s. induction t as [|c t IH]; intros prev s.
  - simpl. split.
    + intros M. exists s. auto.
    + intros [s' [-> M]]. exact M.
  - change (literal (String c t) ++ rest)%list
      with (Class (Ascii.eqb c) :: (literal t ++ rest))%list.
    rewrite matchesAt_class. split.
    + intros [d [s' [-> [E M]]]]. apply Ascii.eqb_eq in E. subst d.
      apply IH in M. destruct M as [s'' [-> M]].
      exists s''. split; [reflexivity|exact M].
    + intros [s' [-> M]]. exists c, (t ++ s').
      split; [reflexivity|]. split; [apply Ascii.eqb_refl|].
      apply IH. exists s'. split; [reflexivity|exact M].
Qed.

Lemma matchesAt_star_unfold (p : ascii -> bool) (rest : list Atom)
  (prev : option ascii) (s : string) :
  matchesAt (Star p :: rest) prev s =
  match s with
  | String c s' => p c && matchesAt (Star p :: rest) (Some c) s'
  | EmptyString => false
  end || matchesAt rest prev s.
Proof. destruct s; reflexivity. Qed.

Lemma matchesAt_lazyStar_unfold (p : ascii -> bool) (rest : list Atom)
  (prev : option ascii) (s : string) :
  matchesAt (LazyStar p :: rest) prev s =
  matchesAt rest prev s ||
  match s with
  | String c s' => p c && matchesAt (LazyStar p :: rest) (Some c) s'
  | EmptyString => false
  end.
Proof. destruct s; reflexivity. Qed.

(** Greedy or lazy, a repetition lets the pattern match exactly when some
    run of the class can be followed by a match of the rest. *)
Lemma matchesAt_lazyStar_star (p : ascii -> bool) (rest : list Atom)
  (prev : option ascii) (s : string) :
  matchesAt (LazyStar p :: rest) prev s = matchesAt (Star p :: rest) prev s.
Proof.
  revert prev. induction s as [|c s IH]; intros prev;
    rewrite matchesAt_lazyStar_unfold, matchesAt_star_unfold.
  - apply orb_comm.
  - rewrite IH. apply orb_comm.
Qed.

Lemma matchesAt_star (p : ascii -> bool) (rest : list Atom)
  (prev : option ascii) (s : string) :
  matchesAt (Star p :: rest) prev s = true
  <-> exists w s', s = w ++ s' /\ every p w = true
                   /\ matchesAt rest (lastChar prev w) s' = true.
Proof.
  split.
  - revert prev. induction s as [|c s IH]; intros prev;
      rewrite matchesAt_star_unfold, orb_true_iff.
    + intros [H|H]; [discriminate|].
      exists EmptyString, EmptyString. auto.
    + rewrite andb_true_iff. intros [[P M]|M].
      * apply IH in M. destruct M as [w [s' [-> [E M]]]].
        exists (String c w), s'. simpl. rewrite P, E. auto.
      * exists EmptyString, (String c s). auto.
  - intros [w [s' [-> [E M]]]]. revert prev M.
    induction w as [|c w IH]; intros prev M;
      rewrite matchesAt_star_unfold, orb_true_iff.
    + right. exact M.
    + simpl in E. apply andb_true_iff in E. destruct E as [P E].
      left. cbn [append]. rewrite P. apply IH; assumption.
Qed.

Lemma matchesAt_lazyStar (p : ascii -> bool) (rest : list Atom)
  (prev : option ascii) (s : string) :
  matchesAt (LazyStar p :: rest) prev s = true
  <-> exists w s', s = w ++ s' /\ every p w = true
                   /\ matchesAt rest (lastChar prev w) s' = true.
Proof. rewrite matchesAt_lazyStar_star. apply matchesAt_star. Qed.

Lemma searchFrom_spec (pat : list Atom) (prev : option ascii) (s : string) :
  searchFrom pat prev s = true
  <-> exists before s', s = before ++ s'
                        /\ matchesAt pat (lastChar prev before) s' = true.
Proof.
  split.
  - revert prev. induction s as [|c s IH]; intros prev; cbn [searchFrom];
      rewrite orb_true_iff.
    + intros [M|M]; [|discriminate]. exists EmptyString, EmptyString. auto.
    + intros [M|M].
      * exists EmptyString, (String c s). auto.
      * apply IH in M. destruct M as [before [s' [-> M]]].
        exists (String c before), s'. auto.
  - intros [before [s' [-> M]]]. revert prev M.
    induction before as [|c before IH]; intros prev M.
    + destruct s'; cbn [searchFrom append]; rewrite orb_true_iff; left;
        exact M.
    + cbn [searchFrom append]. rewrite orb_true_iff. right.
      apply IH. exact M.
Qed.

Lemma SOURCE_URL_REGEX_shape :
  SOURCE_URL_REGEX =
  LineStart :: Star isBlankOrTab ::
    (literal "//" ++ Class isAtOrHash ::
       (literal " sourceURL=" ++
          Star isWhiteSpace :: LazyStar isNonWhiteSpace :: Star isWhiteSpace
          :: [LineEnd]))%list.
Proof. reflexivity. Qed.

(** The pattern of the source matches somewhere in a text exactly when the
    text has a source-URL comment in the sense of the specification. *)
Lemma SOURCE_URL_REGEX_spec (s : string) :
  RegExp_test SOURCE_URL_REGEX s = true <-> hasSourceUrlComment s.
Proof.
  unfold RegExp_test, hasSourceUrlComment.
  rewrite searchFrom_spec, SOURCE_URL_REGEX_shape. split.
  - intros [before [s1 [-> M]]].
    apply matchesAt_lineStart in M. destruct M as [L M].
    apply matchesAt_star in M. destruct M as [blanks [s2 [-> [B M]]]].
    apply matchesAt_literal in M. destruct M as [s3 [-> M]].
    apply matchesAt_class in M. destruct M as [c [s4 [-> [C M]]]].
    apply matchesAt_literal in M. destruct M as [s5 [-> M]].
    apply matchesAt_star in M. destruct M as [ws1 [s6 [-> [W1 M]]]].
    apply matchesAt_lazyStar in M. destruct M as [url [s7 [-> [U M]]]].
    apply matchesAt_star in M. destruct M as [ws2 [after [-> [W2 M]]]].
    apply matchesAt_lineEnd in M.
    exists before, blanks, c, ws1, url, ws2, after. auto 10.
  - intros (before & blanks & c & ws1 & url & ws2 & after
            & -> & L & B & C & W1 & U & W2 & E).
    exists before. eexists. split; [reflexivity|].
    apply matchesAt_lineStart. split; [exact L|].
    apply matchesAt_star. exists blanks. eexists.
    split; [reflexivity|]. split; [exact B|].
    apply matchesAt_literal. eexists. split; [reflexivity|].
    apply matchesAt_class. exists c. eexists.
    split; [reflexivity|]. split; [exact C|].
    apply matchesAt_literal. eexists. split; [reflexivity|].
    apply matchesAt_star. exists ws1. eexists.
    split; [reflexivity|]. split; [exact W1|].
    apply matchesAt_lazyStar. exists url. eexists.
    split; [reflexivity|]. split; [exact U|].
    apply matchesAt_star. exists ws2, after.
    split; [reflexivity|]. split; [exact W2|].
    apply matchesAt_lineEnd. exact E.
Qed.

(* ------------------------------------------------------------------ *)
(** ** Lines of a text and the marker *)

Lemma split_nonempty (s : string) (sep : ascii) : split s sep <> [].
Proof.
  destruct s as [|c s]; cbn [split]; [discriminate|].
  destruct (Ascii.eqb c sep); [discriminate|].
  destruct (split s sep); discriminate.
Qed.

Lemma split_single_line (m : string) :
  every isNotLF m = true -> split m LF = [m].
Proof.
  induction m as [|c m IH]; [reflexivity|].
  cbn [every split]. rewrite andb_true_iff. intros [C M].
  unfold isNotLF in C. destruct (Ascii.eqb c LF); [discriminate|].
  rewrite (IH M). reflexivity.
Qed.

(** Appending a line break and a text without line break adds one line. *)
Lemma split_appended_line (e m : string) :
  every isNotLF m = true ->
  split (e ++ newline ++ m) LF = (split e LF ++ [m])%list.
Proof.
  intros M. induction e as [|c e IH].
  - cbn. rewrite (split_single_line m M). reflexivity.
  - cbn [append split]. rewrite IH.
    destruct (Ascii.eqb c LF); [reflexivity|].
    pose proof (split_nonempty e LF) as N.
    destruct (split e LF) as [|l ls]; [contradiction|reflexivity].
Qed.

Lemma withSourceUrl_cases (expression : string) :
  (hasSourceUrlComment expression -> withSourceUrl expression = expression)
  /\ (~ hasSourceUrlComment expression ->
      withSourceUrl expression = expression ++ newline ++ marker).
Proof.
  unfold withSourceUrl.
  pose proof (SOURCE_URL_REGEX_spec expression) as R.
  destruct (RegExp_test SOURCE_URL_REGEX expression); split; auto.
  - intros N. exfalso. apply N, R. reflexivity.
  - intros H. apply R in H. discriminate H.
Qed.

Lemma marker_appended_matches (expression : string) :
  hasSourceUrlComment (expression ++ newline ++ marker).
Proof.
  exists (expression ++ newline), EmptyString, "#"%char, EmptyString,
    "__puppeteer_evaluation_script__", EmptyString, EmptyString.
  split; [rewrite append_assoc; reflexivity|].
  rewrite lastChar_append. repeat split; reflexivity.
Qed.

(* ------------------------------------------------------------------ *)
(** ** Arguments that throw, and the repair of a text *)

Lemma convertArgument_throws (v : JSValue) (e : Exception) :
  convertArgument v = Throw e ->
  e = instanceofTypeError /\ marshallable v = false.
Proof.
  intros C. destruct (marshallable v) eqn:M.
  - destruct (convertArgument_marshallable v M) as [a [E _]].
    rewrite E in C. discriminate C.
  - rewrite (convertArgument_unmarshallable v M) in C.
    injection C as <-. split; reflexivity.
Qed.

Lemma disposed_unmarshallable (v : JSValue) :
  isDisposedHandle v = true -> marshallable v = false.
Proof. destruct v; try discriminate. reflexivity. Qed.

Lemma mapResult_unmarshallable (args : list JSValue) :
  Exists (fun v => marshallable v = false) args ->
  mapResult convertArgument args = Throw instanceofTypeError.
Proof.
  induction args as [|a args IH]; intros E.
  - inversion E.
  - cbn [mapResult]. destruct (convertArgument a) as [b|e] eqn:C.
    + inversion E as [? ? D|? ? E']; subst.
      * rewrite (convertArgument_unmarshallable a D) in C. discriminate.
      * rewrite (IH E'). reflexivity.
    + apply convertArgument_throws in C. destruct C as [-> _]. reflexivity.
Qed.

Lemma repaired_async (rest : string) :
  repaired ("async " ++ rest) = "async " ++ "function " ++ rest.
Proof. destruct rest; reflexivity. Qed.

Lemma repaired_other (text : string) :
  ~ hasPrefix text "async " -> repaired text = "function " ++ text.
Proof.
  intros N. unfold repaired.
  destruct (prefix "async " text) eqn:E; [|reflexivity].
  exfalso. apply N, prefix_spec, E.
Qed.

(* ------------------------------------------------------------------ *)
(** ** The invoker

    The host, the transport, the target context and the calling-frame index
    are those of one call. *)

Section Invoker.

Variable host : Host.
Variable client : CDPSession.
Variable contextId : JSNumber.
Variable frame : option JSNumber.

(** *** Call shape by call shape *)

Lemma evaluate_expression_run (pageFunction : JSValue)
  (args : option (list JSValue)) :
  isString pageFunction = true ->
  run (_evaluateInternal host client contextId pageFunction frame args) =
  let command :=
    Runtime_evaluate (withSourceUrl (stringOf pageFunction)) contextId
      true true true in
  ([command],
   match client command with
   | SendThrows e => Throw (Thrown e)
   | SendReturns promise => settle host frame promise
   end).
Proof.
  intros S. unfold _evaluateInternal, run. rewrite S.
  unfold bind, send, withSourceUrl, marker. cbn [app].
  change ("//# sourceURL=" ++ EVALUATION_SCRIPT_URL)
    with "//# sourceURL=__puppeteer_evaluation_script__".
  cbv zeta.
  destruct (client _) as [e|[response|error]]; [reflexivity| |].
  - unfold awaitCatch, ret, settle.
    destruct (Response.exceptionDetails response); reflexivity.
  - unfold awaitCatch, lift, settle.
    destruct (rewriteError error) as [response|e]; [|reflexivity].
    destruct (Response.exceptionDetails response); reflexivity.
Qed.

Lemma evaluate_other_run (pageFunction : JSValue)
  (args : option (list JSValue)) :
  isString pageFunction = false -> isFunction pageFunction = false ->
  run (_evaluateInternal host client contextId pageFunction frame args)
  = ([], match interpolated host pageFunction with
         | Return shown => Throw (expectedStringOrFunction shown)
         | Throw e => Throw e
         end).
Proof.
  intros S F. unfold _evaluateInternal, run. rewrite S, F.
  unfold bind, lift. cbn [negb].
  destruct (interpolated host pageFunction); reflexivity.
Qed.

Lemma evaluate_function_run (text : string)
  (args : option (list JSValue)) :
  run (_evaluateInternal host client contextId (VFunction text) frame args) =
  match serialized host text with
  | None => ([], Throw malformedCallable)
  | Some functionText =>
      match mapResult convertArgument (argumentList args) with
      | Throw e => ([], Throw (rethrown e))
      | Return arguments =>
          let command :=
            Runtime_callFunctionOn (functionText ++ newline ++ marker ++ newline)
              contextId arguments true true true in
          ([command],
           match client command with
           | SendThrows e => Throw (rethrown (Thrown e))
           | SendReturns promise => settle host frame promise
           end)
      end
  end.
Proof.
  unfold _evaluateInternal. cbn [isString isFunction negb Function_toString].
  cbv iota. fold (argumentList args).
  change ("//# sourceURL=" ++ EVALUATION_SCRIPT_URL) with marker.
  unfold serialized, parses, repaired, startsWith.
  change (length "async ") with 6.
  change ("async " ++ "function " ++ substringFrom 6 text)
    with ("async function " ++ substringFrom 6 text).
  cbv zeta.
  assert (tail : forall (functionText : string) (ok : Result (list CallArgument)),
    run (callFunctionOnPromise <-
           tryCatch
             (arguments <- lift ok ;;
              send client
                (Runtime_callFunctionOn
                   (functionText ++ newline ++ marker ++ newline)
                   contextId arguments true true true))
             (fun error =>
                match error with
                | Thrown e =>
                    match errorClass e with
                    | ClassTypeError =>
                        if prefix "Converting circular structure to JSON" (message e)
                        then throw (Thrown (mkError (errorClass e)
                               (message e ++ " Are you passing a nested JSHandle?")))
                        else throw error
                    | _ => throw error
                    end
                | _ => throw error
                end) ;;
         response <- awaitCatch callFunctionOnPromise rewriteError ;;
         match Response.exceptionDetails response with
         | Some exceptionDetails =>
             throw (remoteException host exceptionDetails frame)
         | None => lift (valueFromRemoteObject host (Response.result response))
         end)
    = match ok with
      | Throw e => ([], Throw (rethrown e))
      | Return arguments =>
          ([Runtime_callFunctionOn (functionText ++ newline ++ marker ++ newline)
              contextId arguments true true true],
           match client (Runtime_callFunctionOn
                           (functionText ++ newline ++ marker ++ newline)
                           contextId arguments true true true) with
           | SendThrows e => Throw (rethrown (Thrown e))
           | SendReturns promise => settle host frame promise
           end)
      end).
  { intros functionText [arguments|e].
    - cbv beta iota delta [run bind tryCatch lift send]. cbn [app].
      destruct (client _) as [[[] msg]|[response|error]];
        cbv beta iota delta [throw awaitCatch ret lift settle errorClass message rethrown].
      + reflexivity.
      + destruct (prefix _ msg); reflexivity.
      + reflexivity.
      + destruct (Response.exceptionDetails response); reflexivity.
      + destruct (rewriteError error) as [response|e]; [|reflexivity].
        destruct (Response.exceptionDetails response); reflexivity.
    - cbv beta iota delta [run bind tryCatch lift send].
      destruct e as [[[] msg]|e];
        cbv beta iota delta [throw errorClass message rethrown];
        try reflexivity.
      destruct (prefix _ msg); reflexivity. }
  destruct (functionConstructorAccepts host ("(" ++ text ++ ")")).
  - exact (tail _ _).
  - destruct (functionConstructorAccepts host _).
    + exact (tail _ _).
    + reflexivity.
Qed.

(** *** Input validation *)

(** C10, as the code behaves: the message of the expected-string-or-function
    error interpolates the program input into a template literal, and for a
    symbol that conversion raises a TypeError of its own. The call still
    fails locally, with nothing sent and whatever the argument list holds,
    but the error raised is not the one that states that a string or
    function was expected. *)
Theorem symbol_input_raises_TypeError (description : string)
  (args : option (list JSValue)) :
  isString (VSymbol description) = false
  /\ isFunction (VSymbol description) = false
  /\ run (_evaluateInternal host client contextId (VSymbol description) frame
            args)
     = ([], Throw symbolInterpolationError)
  /\ forall shown, symbolInterpolationError <> expectedStringOrFunction shown.
Proof.
  split; [reflexivity|]. split; [reflexivity|]. split.
  - rewrite evaluate_other_run by reflexivity. reflexivity.
  - intros shown H. discriminate H.
Qed.

(** *** Repair of a callable's text *)

(** C6: when the printed text of a callable does not parse once wrapped in
    parentheses, one repair is attempted: [function ] is inserted right
    after a leading [async ], and is prepended otherwise. If the repaired
    text does not parse either, the call raises the malformed-callable
    error and no transport command is issued; if it parses, the repaired
    text is what is transmitted. *)
Theorem callable_repair (text : string)
  (args : option (list JSValue)) :
  parses host text = false ->
  (forall rest, text = "async " ++ rest ->
     repaired text = "async " ++ "function " ++ rest)
  /\ (~ hasPrefix text "async " -> repaired text = "function " ++ text)
  /\ (parses host (repaired text) = false ->
      run (_evaluateInternal host client contextId (VFunction text) frame args)
      = ([], Throw malformedCallable))
  /\ (parses host (repaired text) = true ->
      forall arguments,
        mapResult convertArgument (argumentList args) = Return arguments ->
        fst (run (_evaluateInternal host client contextId (VFunction text)
                    frame args))
        = [Runtime_callFunctionOn
             (repaired text ++ newline ++ marker ++ newline)
             contextId arguments true true true]).
Proof.
  intros P. split; [|split; [|split]].
  - intros rest ->. apply repaired_async.
  - apply repaired_other.
  - intros R. rewrite evaluate_function_run. unfold serialized.
    rewrite P, R. reflexivity.
  - intros R arguments A. rewrite evaluate_function_run. unfold serialized.
    rewrite P, R, A. reflexivity.
Qed.

(** *** Disposed handles *)

(** C5 (amended): in a function invocation, an argument that is a remote
    handle whose disposed flag is set makes the call fail before any
    transport command is issued. An expression evaluation does not look at
    its argument list. *)
Theorem disposed_handle_fails_before_send (args : list JSValue) :
  Exists (fun v => isDisposedHandle v = true) args ->
  (forall text,
     exists e,
       run (_evaluateInternal host client contextId (VFunction text) frame
              (Some args)) = ([], Throw e))
  /\ (forall expression,
        run (_evaluateInternal host client contextId (VString expression) frame
               (Some args))
        = run (_evaluateInternal host client contextId (VString expression)
                 frame None)).
Proof.
  intros E. split.
  - intros text. rewrite evaluate_function_run. cbn [argumentList].
    rewrite (mapResult_unmarshallable args).
    + destruct (serialized host text); eexists; reflexivity.
    + apply Exists_exists. apply Exists_exists in E.
      destruct E as [v [I D]]. exists v. split; [exact I|].
      apply disposed_unmarshallable, D.
  - intros expression. rewrite !evaluate_expression_run by reflexivity.
    reflexivity.
Qed.

(** *** Encoding of an expression *)

(** C7: for every string program text, if the source-URL pattern already
    matches somewhere in the text, the text is sent unchanged with no
    marker appended; otherwise exactly one marker line is appended as the
    final line of the transmitted text. Either way the transmitted text has
    a source-URL comment. *)
Theorem expression_source_url (pageFunction : JSValue)
  (args : option (list JSValue)) :
  isString pageFunction = true ->
  let expression := stringOf pageFunction in
  exists transmitted,
    fst (run (_evaluateInternal host client contextId pageFunction frame args))
    = [Runtime_evaluate transmitted contextId true true true]
    /\ (hasSourceUrlComment expression -> transmitted = expression)
    /\ (~ hasSourceUrlComment expression ->
        transmitted = expression ++ newline ++ marker
        /\ split transmitted LF = (split expression LF ++ [marker])%list)
    /\ hasSourceUrlComment transmitted.
Proof.
  intros S expression. exists (withSourceUrl expression).
  rewrite (evaluate_expression_run pageFunction args S).
  destruct (withSourceUrl_cases expression) as [Y N].
  split; [reflexivity|]. split; [exact Y|]. split.
  - intros H. rewrite (N H). split; [reflexivity|].
    apply split_appended_line. reflexivity.
  - unfold withSourceUrl.
    destruct (RegExp_test SOURCE_URL_REGEX expression) eqn:T.
    + apply SOURCE_URL_REGEX_spec, T.
    + apply marker_appended_matches.
Qed.

End Invoker.

(* ------------------------------------------------------------------ *)
(** ** Remote failures *)

(** X21: an exception payload never lets a value through, in either call
    shape. *)
Lemma exception_payload_throws (host : Host) (contextId : JSNumber)
  (frame : option JSNumber) (details : ExceptionDetails.t)
  (result : RemoteObject) (pageFunction : JSValue)
  (args : option (list JSValue)) :
  exists e,
    snd (run (_evaluateInternal host
                (answering (Response.mk (Some details) result)) contextId
                pageFunction frame args)) = Throw e.
Proof.
  destruct (isString pageFunction) eqn:S.
  - rewrite evaluate_expression_run by exact S. eexists. reflexivity.
  - destruct (isFunction pageFunction) eqn:F.
    + destruct pageFunction; try discriminate F.
      rewrite evaluate_function_run.
      destruct (serialized host text); [|eexists; reflexivity].
      destruct (mapResult convertArgument (argumentList args));
        eexists; reflexivity.
    + rewrite evaluate_other_run by assumption.
      destruct (interpolated host pageFunction); eexists; reflexivity.
Qed.

(** X20: an exception payload whose exception object has a description is raised
    as a structured error: its name is the class name, its message the first
    line of the description, its stack the whole description, its frames
    those parsed from the lines of the description, and it carries the
    calling-frame index. *)
Lemma described_exception_is_structured (host : Host)
  (contextId : JSNumber) (frame : option JSNumber)
  (text : string) (exception result : RemoteObject) (description : string) :
  RemoteObject.description exception = Some description ->
  let response :=
    Response.mk (Some (ExceptionDetails.mk text (Some exception))) result in
  let raised :=
    Throw (ThrownSymbolicateable
      (SymbolicateableError.mk
         (Some description)
         (RemoteObject.className exception)
         (Some (hd EmptyString (split description LF)))
         frame
         (parseStack host (split description LF)))) in
  (forall pageFunction args, isString pageFunction = true ->
     snd (run (_evaluateInternal host (answering response) contextId
                 pageFunction frame args)) = raised)
  /\ (forall functionText args arguments,
        serialized host functionText <> None ->
        mapResult convertArgument (argumentList args) = Return arguments ->
        snd (run (_evaluateInternal host (answering response) contextId
                    (VFunction functionText) frame args)) = raised).
Proof.
  intros D response raised. split.
  - intros pageFunction args S.
    rewrite evaluate_expression_run by exact S.
    cbn [snd answering]. unfold settle, response, remoteException.
    cbn [Response.exceptionDetails ExceptionDetails.exception].
    rewrite D. reflexivity.
  - intros functionText args arguments S A.
    rewrite evaluate_function_run.
    destruct (serialized host functionText); [|contradiction].
    rewrite A. cbn [snd answering]. unfold settle, response, remoteException.
    cbn [Response.exceptionDetails ExceptionDetails.exception].
    rewrite D. reflexivity.
Qed.

(* ------------------------------------------------------------------ *)
(** ** The invoker on concrete calls *)

Lemma callable_repair_witness :
  run (_evaluateInternal exampleHost answersTwo posZero
         (VFunction "get x() { return 1 }") None None)
  = ([], Throw malformedCallable)
  /\ fst (run (_evaluateInternal exampleHost answersTwo posZero
                 (VFunction "async increment(x) { return x + 1 }") None
                 (Some [VBigInt 2])))
     = [Runtime_callFunctionOn
          ("async function increment(x) { return x + 1 }" ++ newline
           ++ marker ++ newline)
          posZero [unserializable "2n"] true true true].
Proof.
  split.
  - apply (callable_repair exampleHost answersTwo posZero None
             "get x() { return 1 }" None); reflexivity.
  - apply (callable_repair exampleHost answersTwo posZero None
             "async increment(x) { return x + 1 }"
             (Some [VBigInt 2])); reflexivity.
Defined.

(** C5, as stated, fails for expression evaluation: with a string program
    text the argument list is never looked at, so a disposed handle in it
    does not stop the call; the command is sent and its value returned. *)
Lemma expression_sent_despite_disposed_handle :
  run (_evaluateInternal exampleHost answersTwo posZero (VString "1+1") None
         (Some [VHandle (JSHandle.mk true
                  (RemoteObject.mk (Some "object") None None None None (Some "7")))]))
  = ([Runtime_evaluate ("1+1" ++ newline ++ marker) posZero true true true],
     Return (VNumber numberTwo)).
Proof. reflexivity. Qed.

Lemma disposed_handle_fails_before_send_witness :
  exists e,
    run (_evaluateInternal exampleHost answersTwo posZero
           (VFunction "x => x") None
           (Some [VNull;
                  VHandle (JSHandle.mk true
                    (RemoteObject.mk (Some "object") None None None None
                       (Some "7")))]))
    = ([], Throw e).
Proof.
  refine (proj1 (disposed_handle_fails_before_send exampleHost answersTwo
                   posZero None
                   [VNull;
                    VHandle (JSHandle.mk true
                      (RemoteObject.mk (Some "object") None None None None
                         (Some "7")))] _) "x => x").
  apply Exists_cons_tl, Exists_cons_hd. reflexivity.
Defined.

Lemma expression_source_url_witness :
  exists transmitted,
    fst (run (_evaluateInternal exampleHost answersTwo posZero (VString "1+1")
                None None))
    = [Runtime_evaluate transmitted posZero true true true]
    /\ (hasSourceUrlComment "1+1" -> transmitted = "1+1")
    /\ (~ hasSourceUrlComment "1+1" ->
        transmitted = "1+1" ++ newline ++ marker
        /\ split transmitted LF = (split "1+1" LF ++ [marker])%list)
    /\ hasSourceUrlComment transmitted.
Proof.
  apply (expression_source_url exampleHost answersTwo posZero None
           (VString "1+1") None).
  reflexivity.
Defined.

Example expression_without_marker :
  fst (run (_evaluateInternal exampleHost answersTwo posZero (VString "1+1")
              None None))
  = [Runtime_evaluate ("1+1" ++ newline ++ marker) posZero true true true].
Proof. reflexivity. Qed.

Example expression_with_marker :
  fst (run (_evaluateInternal exampleHost answersTwo posZero
              (VString ("1+1" ++ newline ++ "  //@ sourceURL=sum.js")) None None))
  = [Runtime_evaluate ("1+1" ++ newline ++ "  //@ sourceURL=sum.js") posZero
       true true true].
Proof. reflexivity. Qed.

(** C8 fails on a payload without a description, in both call shapes. When
    the remote script throws a string, the exception object has a value and
    no description; building the stack-frame list calls [split] on the
    missing description, and the call raises that TypeError instead of the
    structured error. *)
Theorem exception_without_description_raises_TypeError :
  let thrownString :=
    RemoteObject.mk (Some "string") None (Some (VString "boom")) None None None in
  let typeError :=
    Thrown (mkError ClassTypeError
              "Cannot read properties of undefined (reading 'split')") in
  run (_evaluateInternal exampleHost (answersException (Some thrownString))
         posZero (VString "throw 'boom'") (Some posZero) None)
  = ([Runtime_evaluate ("throw 'boom'" ++ newline ++ marker) posZero
        true true true],
     Throw typeError)
  /\ run (_evaluateInternal exampleHost (answersException (Some thrownString))
            posZero (VFunction "x => x") (Some posZero) None)
     = ([Runtime_callFunctionOn ("x => x" ++ newline ++ marker ++ newline)
           posZero [] true true true],
        Throw typeError)
  /\ run (_evaluateInternal exampleHost (answersException None)
            posZero (VString "throw 'boom'") (Some posZero) None)
     = ([Runtime_evaluate ("throw 'boom'" ++ newline ++ marker) posZero
           true true true],
        Throw typeError).
Proof. cbv zeta. repeat split. Qed.

(* ------------------------------------------------------------------ *)
(** ** More on the marshalling of arguments *)

Lemma convertArgument_returns (v : JSValue) (a : CallArgument) :
  convertArgument v = Return a ->
  marshallable v = true
  /\ populatedFields a = 1
  /\ CallArgument.objectId a = None.
Proof.
  intros C. destruct (marshallable v) eqn:M.
  - destruct (convertArgument_marshallable v M) as [a' [E [O P]]].
    rewrite E in C. injection C as <-. auto.
  - rewrite (convertArgument_unmarshallable v M) in C. discriminate C.
Qed.

Lemma mapResult_Forall2 {A B} (f : A -> Result B) (l : list A) (bs : list B) :
  mapResult f l = Return bs <-> Forall2 (fun a b => f a = Return b) l bs.
Proof.
  revert bs. induction l as [|a l IH]; intros bs; cbn [mapResult].
  - split.
    + intros E. injection E as <-. constructor.
    + intros H. inversion H. reflexivity.
  - destruct (f a) as [b|e] eqn:F.
    + destruct (mapResult f l) as [bs'|e].
      * split.
        -- intros E. injection E as <-. constructor; [exact F|].
           apply IH. reflexivity.
        -- intros H. inversion H as [|? b' ? bs'' F' H']; subst.
           rewrite F in F'. injection F' as <-.
           apply IH in H'. injection H' as <-. reflexivity.
      * split; [discriminate|].
        intros H. inversion H as [|? b' ? bs'' F' H']; subst.
        apply IH in H'. discriminate H'.
    + split; [discriminate|].
      intros H. inversion H as [|? b' ? bs'' F' H']; subst. congruence.
Qed.

Lemma mapResult_marshallable (l : list JSValue) :
  forallb marshallable l = true ->
  exists arguments, mapResult convertArgument l = Return arguments.
Proof.
  induction l as [|a l IH]; cbn [forallb mapResult].
  - eauto.
  - rewrite andb_true_iff. intros [L H]. destruct (IH H) as [bs E].
    destruct (convertArgument_marshallable a L) as [b [C _]].
    rewrite C, E. eauto.
Qed.

Lemma mapResult_not_marshallable (l : list JSValue) :
  forallb marshallable l = false ->
  mapResult convertArgument l = Throw instanceofTypeError.
Proof.
  intros H. apply mapResult_unmarshallable.
  induction l as [|a l IH]; cbn [forallb] in H; [discriminate|].
  apply andb_false_iff in H. destruct H as [H|H].
  - apply Exists_cons_hd, H.
  - apply Exists_cons_tl, IH, H.
Qed.

(** X1: what [convertArgument] does with every value. A big integer and the
    four sentinels get their tags; of the other values, the falsy ones
    (undefined, null, false, +0 and the empty string) go in the value field
    unchanged, and every truthy one raises the TypeError of [instanceof].
    Whatever is returned has exactly one of the three properties. *)
Theorem convertArgument_outcome (v : JSValue) :
  (marshallable v = false -> convertArgument v = Throw instanceofTypeError)
  /\ (marshallable v = true ->
      exists a, convertArgument v = Return a /\ populatedFields a = 1)
  /\ (isBigInt v = false -> isSentinel v = false ->
      (ToBoolean v = false -> convertArgument v = Return (plainValue v))
      /\ (ToBoolean v = true -> convertArgument v = Throw instanceofTypeError))
  /\ (ToBoolean v = false ->
      v = VUndefined \/ v = VNull \/ v = VBoolean false
      \/ v = VNumber posZero \/ v = VNumber negZero \/ v = VNumber NaN
      \/ v = VBigInt 0 \/ v = VString EmptyString).
Proof.
  split; [apply convertArgument_unmarshallable|]. split; [|split].
  - intros M. destruct (convertArgument_marshallable v M) as [a [E [_ P]]].
    exists a. auto.
  - intros B S. split; intros T.
    + apply convertArgument_plain; assumption.
    + apply convertArgument_truthy; assumption.
  - destruct v as [| |[]|x|n|s| | | | | |]; cbn [ToBoolean]; try discriminate;
      auto 10.
    + destruct x as [[]|[]| |]; try discriminate; auto 10.
    + destruct (Z.eqb_spec n 0) as [->|]; [auto 10|discriminate].
    + destruct s; [auto 10|discriminate].
Qed.

Lemma convertArgument_outcome_witness :
  convertArgument (VString "two") = Throw instanceofTypeError
  /\ (exists a, convertArgument (VNumber Infinity) = Return a
                /\ populatedFields a = 1)
  /\ convertArgument (VString EmptyString)
     = Return (plainValue (VString EmptyString)).
Proof.
  split; [|split].
  - refine (proj1 (convertArgument_outcome (VString "two")) _). reflexivity.
  - refine (proj1 (proj2 (convertArgument_outcome (VNumber Infinity))) _).
    reflexivity.
  - refine (proj1 (proj1 (proj2 (proj2
              (convertArgument_outcome (VString EmptyString)))) _ _) _);
      reflexivity.
Defined.

(** X2: no argument that [convertArgument] returns is an object reference,
    none comes from a handle, and the handle-disposed error is never
    raised: a handle, disposed or not, raises the TypeError of [instanceof]
    before any of its fields is read. *)
Theorem no_object_reference_is_marshalled (v : JSValue) :
  (forall a, convertArgument v = Return a ->
     CallArgument.objectId a = None /\ isHandle v = false)
  /\ convertArgument v <> Throw handleDisposed
  /\ (isHandle v = true -> convertArgument v = Throw instanceofTypeError).
Proof.
  split; [|split].
  - intros a C. destruct (convertArgument_returns v a C) as [M [_ O]].
    split; [exact O|]. destruct v; try reflexivity. discriminate M.
  - intros C. apply convertArgument_throws in C. destruct C as [C _].
    discriminate C.
  - intros H. destruct v; try discriminate H. reflexivity.
Qed.

Lemma no_object_reference_is_marshalled_witness :
  convertArgument
    (VHandle (JSHandle.mk false
       (RemoteObject.mk (Some "object") (Some "Window") None None
          (Some "Window") (Some "{injectedScriptId:1,id:1}"))))
  = Throw instanceofTypeError
  /\ CallArgument.objectId (unserializable "5n") = None.
Proof.
  split.
  - refine (proj2 (proj2 (no_object_reference_is_marshalled _)) _).
    reflexivity.
  - refine (proj1 (proj1 (no_object_reference_is_marshalled (VBigInt 5))
                     (unserializable "5n") _)).
    reflexivity.
Defined.

(* ------------------------------------------------------------------ *)
(** ** The invoker: what is sent and what comes back *)

Lemma run_when_sent (host : Host) (client : CDPSession) (contextId : JSNumber)
  (frame : option JSNumber) (pageFunction : JSValue)
  (args : option (list JSValue)) :
  reachesTransport host pageFunction args = true ->
  exists command,
    run (_evaluateInternal host client contextId pageFunction frame args)
    = ([command],
       match client command with
       | SendThrows e => Throw (sendFailure pageFunction e)
       | SendReturns promise => settle host frame promise
       end)
    /\ commandContext command = contextId
    /\ commandFlags command = true.
Proof.
  unfold reachesTransport, sendFailure. intros R.
  destruct (isString pageFunction) eqn:S.
  - rewrite evaluate_expression_run by exact S.
    eexists. split; [reflexivity|]. split; reflexivity.
  - cbn [orb] in R. destruct pageFunction; try discriminate R.
    rewrite evaluate_function_run.
    destruct (serialized host text) as [functionText|]; [|discriminate R].
    destruct (mapResult_marshallable _ R) as [arguments ->].
    eexists. split; [reflexivity|]. split; reflexivity.
Qed.

Lemma run_when_not_sent (host : Host) (client : CDPSession)
  (contextId : JSNumber) (frame : option JSNumber) (pageFunction : JSValue)
  (args : option (list JSValue)) :
  reachesTransport host pageFunction args = false ->
  exists e,
    run (_evaluateInternal host client contextId pageFunction frame args)
    = ([], Throw e)
    /\ ((isFunction pageFunction = false
         /\ (interpolated host pageFunction = Throw e
             \/ exists shown,
                  interpolated host pageFunction = Return shown
                  /\ e = expectedStringOrFunction shown))
        \/ (isFunction pageFunction = true
            /\ (e = malformedCallable \/ e = instanceofTypeError))).
Proof.
  unfold reachesTransport. intros R. apply orb_false_iff in R.
  destruct R as [S R].
  destruct (isFunction pageFunction) eqn:F.
  - destruct pageFunction; try discriminate F.
    rewrite evaluate_function_run.
    destruct (serialized host text) as [functionText|].
    + rewrite (mapResult_not_marshallable _ R).
      eexists. split; [reflexivity|]. auto.
    + eexists. split; [reflexivity|]. auto.
  - rewrite evaluate_other_run by assumption.
    destruct (interpolated host pageFunction) as [shown|e].
    + eexists. split; [reflexivity|]. left. split; [reflexivity|].
      right. exists shown. auto.
    + exists e. split; [reflexivity|]. auto.
Qed.

Lemma settle_rejected (host : Host) (frame : option JSNumber)
  (error : ErrorObject) :
  (benign (message error) ->
     settle host frame (Rejects error) = Return VUndefined)
  /\ (~ benign (message error) -> contextGone (message error) ->
      settle host frame (Rejects error) = Throw executionContextDestroyed)
  /\ (~ benign (message error) -> ~ contextGone (message error) ->
      settle host frame (Rejects error) = Throw (Thrown error)).
Proof.
  unfold settle. rewrite rewriteError_cases.
  pose proof (benign_iff (message error)) as B.
  pose proof (contextGone_iff (message error)) as G.
  destruct (includes (message error) "Object reference chain is too long"
            || includes (message error) "Object couldn't be returned by value").
  - split; [reflexivity|].
    split; intros N; exfalso; apply N, B; reflexivity.
  - assert (NB : ~ benign (message error)) by (rewrite B; discriminate).
    split; [intros H; contradiction|].
    destruct (endsWith (message error) "Cannot find context with specified id"
              || endsWith (message error) "Inspected target navigated or closed").
    + split; [reflexivity|]. intros _ N. exfalso. apply N, G. reflexivity.
    + assert (NG : ~ contextGone (message error)) by (rewrite G; discriminate).
      split; [intros _ H; contradiction|reflexivity].
Qed.

(** X3: a function invocation whose callable is serializable and all of
    whose arguments are big integers, sentinels or falsy values sends one
    command; its declaration is the serialized text followed by the marker
    line, whether or not the text has a source-URL comment of its own, and
    its arguments are the conversions of the caller's arguments, one for
    one and in order. *)
Theorem arguments_marshalled_in_order (host : Host) (client : CDPSession)
  (contextId : JSNumber) (frame : option JSNumber)
  (text functionText : string) (args : list JSValue) :
  serialized host text = Some functionText ->
  Forall (fun v => marshallable v = true) args ->
  exists arguments,
    fst (run (_evaluateInternal host client contextId (VFunction text) frame
                (Some args)))
    = [Runtime_callFunctionOn (functionText ++ newline ++ marker ++ newline)
         contextId arguments true true true]
    /\ Forall2 (fun v a => convertArgument v = Return a) args arguments
    /\ List.length arguments = List.length args.
Proof.
  intros S L. rewrite evaluate_function_run, S. cbn [argumentList].
  assert (F : forallb marshallable args = true).
  { apply forallb_forall. rewrite Forall_forall in L. exact L. }
  destruct (mapResult_marshallable args F) as [arguments E]. rewrite E.
  exists arguments. split; [reflexivity|].
  apply mapResult_Forall2 in E. split; [exact E|].
  symmetry. apply (Forall2_length E).
Qed.

Lemma arguments_marshalled_in_order_witness :
  exists arguments,
    fst (run (_evaluateInternal exampleHost answersTwo posZero
                (VFunction "x => x") None
                (Some [VNumber negZero; VBigInt 5; VNull])))
    = [Runtime_callFunctionOn ("x => x" ++ newline ++ marker ++ newline)
         posZero arguments true true true]
    /\ Forall2 (fun v a => convertArgument v = Return a)
         [VNumber negZero; VBigInt 5; VNull] arguments
    /\ List.length arguments
       = List.length [VNumber negZero; VBigInt 5; VNull].
Proof.
  apply (arguments_marshalled_in_order exampleHost answersTwo posZero None
           "x => x" "x => x" [VNumber negZero; VBigInt 5; VNull]).
  - reflexivity.
  - repeat constructor.
Defined.

(** X4: a call sends one command or none, never more. When it sends one,
    the command carries the caller's context identifier with the three
    flags set. When it sends none, the call has failed locally: for a
    program that is neither string nor function, with the
    expected-string-or-function error around the text interpolated for the
    program, or with what that interpolation threw; for a callable, with
    the malformed-callable error or with the TypeError of [instanceof]
    raised for an argument. *)
Theorem one_command_or_local_error (host : Host) (client : CDPSession)
  (contextId : JSNumber) (frame : option JSNumber) (pageFunction : JSValue)
  (args : option (list JSValue)) :
  (reachesTransport host pageFunction args = true ->
     exists command,
       fst (run (_evaluateInternal host client contextId pageFunction frame
                   args)) = [command]
       /\ commandContext command = contextId
       /\ commandFlags command = true)
  /\ (reachesTransport host pageFunction args = false ->
      exists e,
        run (_evaluateInternal host client contextId pageFunction frame args)
        = ([], Throw e)
        /\ ((isFunction pageFunction = false
             /\ (interpolated host pageFunction = Throw e
                 \/ exists shown,
                      interpolated host pageFunction = Return shown
                      /\ e = expectedStringOrFunction shown))
            \/ (isFunction pageFunction = true
                /\ (e = malformedCallable \/ e = instanceofTypeError)))).
Proof.
  split.
  - intros R.
    destruct (run_when_sent host client contextId frame pageFunction args R)
      as [command [E [C F]]].
    exists command. rewrite E. auto.
  - apply run_when_not_sent.
Qed.

Lemma one_command_or_local_error_witness :
  (exists command,
     fst (run (_evaluateInternal exampleHost answersTwo posZero (VString "1+1")
                 None None)) = [command]
     /\ commandContext command = posZero
     /\ commandFlags command = true)
  /\ (exists e,
        run (_evaluateInternal exampleHost answersTwo posZero
               (VFunction "get x() { return 1 }") None None)
        = ([], Throw e)
        /\ ((isFunction (VFunction "get x() { return 1 }") = false
             /\ (interpolated exampleHost (VFunction "get x() { return 1 }")
                 = Throw e
                 \/ exists shown,
                      interpolated exampleHost
                        (VFunction "get x() { return 1 }") = Return shown
                      /\ e = expectedStringOrFunction shown))
            \/ (isFunction (VFunction "get x() { return 1 }") = true
                /\ (e = malformedCallable \/ e = instanceofTypeError)))).
Proof.
  split.
  - refine (proj1 (one_command_or_local_error exampleHost answersTwo posZero
                     None (VString "1+1") None) _). reflexivity.
  - refine (proj2 (one_command_or_local_error exampleHost answersTwo posZero
                     None (VFunction "get x() { return 1 }") None) _).
    reflexivity.
Defined.

(** X22: a program that is neither a string nor a function never reaches
    the transport, whatever the argument list holds. The call raises the
    expected-string-or-function error, whose message quotes the text
    interpolated for the program, whenever that interpolation succeeds, and
    what the interpolation threw otherwise. *)
Theorem non_callable_input_outcome (host : Host) (client : CDPSession)
  (contextId : JSNumber) (frame : option JSNumber) (pageFunction : JSValue)
  (args : option (list JSValue)) :
  isString pageFunction = false -> isFunction pageFunction = false ->
  (forall shown, interpolated host pageFunction = Return shown ->
     run (_evaluateInternal host client contextId pageFunction frame args)
     = ([], Throw (expectedStringOrFunction shown))
     /\ exists msg,
          expectedStringOrFunction shown = Thrown (newError msg)
          /\ hasPrefix msg
               "Expected to get |string| or |function| as the first argument"
          /\ contains msg (DQUOTE ++ shown ++ DQUOTE))
  /\ (forall e, interpolated host pageFunction = Throw e ->
      run (_evaluateInternal host client contextId pageFunction frame args)
      = ([], Throw e)).
Proof.
  intros S F. split.
  - intros shown I. rewrite evaluate_other_run, I by assumption.
    split; [reflexivity|]. eexists. split; [reflexivity|]. split.
    + eexists. reflexivity.
    + exists "Expected to get |string| or |function| as the first argument, but got ",
        " instead.".
      rewrite !append_assoc. reflexivity.
  - intros e I. rewrite evaluate_other_run, I by assumption. reflexivity.
Qed.

Lemma non_callable_input_outcome_witness :
  run (_evaluateInternal exampleHost answersTwo posZero VNull None
         (Some [VString "two"]))
  = ([], Throw (expectedStringOrFunction "null"))
  /\ run (_evaluateInternal exampleHost answersTwo posZero
            (VObject [("toString", VNull)]) None None)
     = ([], Throw (Thrown (mkError ClassTypeError
                     "Cannot convert object to primitive value"))).
Proof.
  split.
  - refine (proj1 (proj1 (non_callable_input_outcome exampleHost answersTwo
                            posZero None VNull (Some [VString "two"]) _ _)
                     "null" _)); reflexivity.
  - refine (proj2 (non_callable_input_outcome exampleHost answersTwo
                     posZero None (VObject [("toString", VNull)]) None _ _)
              _ _); reflexivity.
Defined.

(** X5: when the transport rejects the command, in either call shape, the
    call returns undefined if the message has one of the two benign
    phrases; otherwise it raises the execution-context-destroyed error if
    the message has one of the two endings, and the rejection itself,
    unchanged, if not. *)
Theorem rejected_call_outcome (host : Host) (contextId : JSNumber)
  (frame : option JSNumber) (error : ErrorObject) (pageFunction : JSValue)
  (args : option (list JSValue)) :
  reachesTransport host pageFunction args = true ->
  let outcome :=
    snd (run (_evaluateInternal host (rejecting error) contextId pageFunction
                frame args)) in
  (benign (message error) -> outcome = Return VUndefined)
  /\ (~ benign (message error) -> contextGone (message error) ->
      outcome = Throw executionContextDestroyed)
  /\ (~ benign (message error) -> ~ contextGone (message error) ->
      outcome = Throw (Thrown error)).
Proof.
  intros R.
  destruct (run_when_sent host (rejecting error) contextId frame pageFunction
              args R) as [command [E _]].
  rewrite E. cbn [snd rejecting]. apply settle_rejected.
Qed.

Lemma rejected_call_outcome_witness :
  snd (run (_evaluateInternal exampleHost
              (rejecting (newError "Protocol error: Object couldn't be returned by value"))
              posZero (VFunction "x => x") None (Some [VBigInt 2])))
  = Return VUndefined
  /\ snd (run (_evaluateInternal exampleHost
                 (rejecting (newError "Inspected target navigated or closed"))
                 posZero (VString "1+1") None None))
     = Throw executionContextDestroyed.
Proof.
  split.
  - apply (rejected_call_outcome exampleHost posZero None
             (newError "Protocol error: Object couldn't be returned by value")
             (VFunction "x => x") (Some [VBigInt 2])); [reflexivity|].
    apply benign_iff. reflexivity.
  - apply (rejected_call_outcome exampleHost posZero None
             (newError "Inspected target navigated or closed")
             (VString "1+1") None); [reflexivity| |].
    + intros H. apply benign_iff in H. vm_compute in H. discriminate H.
    + apply contextGone_iff. reflexivity.
Defined.

(** X6: when [client.send] itself throws, an expression evaluation raises
    what was thrown, unchanged. A function invocation raises it unchanged
    too, unless it is a TypeError whose message starts with "Converting
    circular structure to JSON": then the hint about a nested handle is
    appended to the message. *)
Theorem send_failure_outcome (host : Host) (contextId : JSNumber)
  (frame : option JSNumber) (error : ErrorObject) (pageFunction : JSValue)
  (args : option (list JSValue)) :
  reachesTransport host pageFunction args = true ->
  let outcome :=
    snd (run (_evaluateInternal host (failing error) contextId pageFunction
                frame args)) in
  (isString pageFunction = true -> outcome = Throw (Thrown error))
  /\ (isString pageFunction = false ->
      errorClass error = ClassTypeError ->
      hasPrefix (message error) "Converting circular structure to JSON" ->
      outcome = Throw (Thrown (mkError ClassTypeError
                  (message error ++ " Are you passing a nested JSHandle?"))))
  /\ (isString pageFunction = false ->
      errorClass error <> ClassTypeError
      \/ ~ hasPrefix (message error) "Converting circular structure to JSON" ->
      outcome = Throw (Thrown error)).
Proof.
  intros R.
  destruct (run_when_sent host (failing error) contextId frame pageFunction
              args R) as [command [E _]].
  rewrite E. cbn [snd failing]. unfold sendFailure.
  destruct error as [cls msg]. cbn [errorClass message].
  pose proof (prefix_spec "Converting circular structure to JSON" msg) as P.
  split; [intros ->; reflexivity|]. split.
  - intros -> -> H. apply P in H. cbn [rethrown]. rewrite H. reflexivity.
  - intros -> [N|N].
    + destruct cls; try reflexivity. contradiction.
    + destruct cls; try reflexivity. cbn [rethrown].
      destruct (prefix "Converting circular structure to JSON" msg);
        [|reflexivity].
      exfalso. apply N, P. reflexivity.
Qed.

Lemma send_failure_outcome_witness :
  snd (run (_evaluateInternal exampleHost
              (failing (mkError ClassTypeError
                 "Converting circular structure to JSON --> starting at object"))
              posZero (VFunction "x => x") None (Some [VBigInt 2])))
  = Throw (Thrown (mkError ClassTypeError
      ("Converting circular structure to JSON --> starting at object"
       ++ " Are you passing a nested JSHandle?")))
  /\ snd (run (_evaluateInternal exampleHost
                 (failing (mkError ClassTypeError
                    "Converting circular structure to JSON --> starting at object"))
                 posZero (VString "1+1") None None))
     = Throw (Thrown (mkError ClassTypeError
         "Converting circular structure to JSON --> starting at object")).
Proof.
  split.
  - apply (send_failure_outcome exampleHost posZero None
             (mkError ClassTypeError
                "Converting circular structure to JSON --> starting at object")
             (VFunction "x => x") (Some [VBigInt 2]));
      [reflexivity | reflexivity | reflexivity |].
    apply prefix_spec. reflexivity.
  - refine (proj1 (send_failure_outcome exampleHost posZero None
                     (mkError ClassTypeError
                        "Converting circular structure to JSON --> starting at object")
                     (VString "1+1") None _) _); reflexivity.
Defined.

(** X7: when the transport resolves the command with a response that has no
    exception payload, the call returns what [valueFromRemoteObject] makes
    of the result. A result without a tag, or with an empty one, decodes to
    its value, and to undefined when it has none. *)
Theorem resolved_call_outcome (host : Host) (contextId : JSNumber)
  (frame : option JSNumber) (result : RemoteObject) (pageFunction : JSValue)
  (args : option (list JSValue)) :
  reachesTransport host pageFunction args = true ->
  let outcome :=
    snd (run (_evaluateInternal host (answering (Response.mk None result))
                contextId pageFunction frame args)) in
  outcome = valueFromRemoteObject host result
  /\ (lacks (RemoteObject.unserializableValue result) ->
      outcome = Return (read (RemoteObject.value result)))
  /\ (lacks (RemoteObject.unserializableValue result) ->
      RemoteObject.value result = None -> outcome = Return VUndefined).
Proof.
  intros R.
  destruct (run_when_sent host (answering (Response.mk None result)) contextId
              frame pageFunction args R) as [command [E _]].
  rewrite E. cbn [snd answering]. unfold settle.
  cbn [Response.exceptionDetails Response.result].
  split; [reflexivity|].
  assert (U : lacks (RemoteObject.unserializableValue result) ->
              valueFromRemoteObject host result
              = Return (read (RemoteObject.value result))).
  { intros L. apply truthy_lacks in L. unfold valueFromRemoteObject.
    rewrite L. reflexivity. }
  split; [exact U|]. intros L V. rewrite (U L), V. reflexivity.
Qed.

Lemma resolved_call_outcome_witness :
  snd (run (_evaluateInternal exampleHost
              (answering (Response.mk None
                 (RemoteObject.mk (Some "undefined") None None (Some EmptyString)
                    None None)))
              posZero (VString "1+1") None None))
  = Return VUndefined.
Proof.
  apply (resolved_call_outcome exampleHost posZero None
           (RemoteObject.mk (Some "undefined") None None (Some EmptyString)
              None None)
           (VString "1+1") None);
    [reflexivity | right; reflexivity | reflexivity].
Defined.

(* ------------------------------------------------------------------ *)
(** ** Translating twice, encoding twice *)

(** X8: translating an error that the translation itself raised changes
    nothing: the execution-context-destroyed error and every error that
    was re-raised unchanged are re-raised unchanged again. *)
Theorem rewriteError_idempotent (error raised : ErrorObject) :
  rewriteError error = Throw (Thrown raised) ->
  rewriteError raised = Throw (Thrown raised).
Proof.
  rewrite (rewriteError_cases error).
  destruct (includes (message error) "Object reference chain is too long"
            || includes (message error) "Object couldn't be returned by value")
    eqn:B; [discriminate|].
  destruct (endsWith (message error) "Cannot find context with specified id"
            || endsWith (message error) "Inspected target navigated or closed")
    eqn:G.
  - unfold executionContextDestroyed. intros E. injection E as <-. reflexivity.
  - intros E. injection E as <-.
    rewrite rewriteError_cases, B, G. reflexivity.
Qed.

Lemma rewriteError_idempotent_witness :
  rewriteError
    (newError "Execution context was destroyed, most likely because of a navigation.")
  = Throw executionContextDestroyed.
Proof.
  apply (rewriteError_idempotent
           (newError "Protocol error: Cannot find context with specified id")).
  reflexivity.
Defined.

Lemma withSourceUrl_matches (expression : string) :
  RegExp_test SOURCE_URL_REGEX (withSourceUrl expression) = true.
Proof.
  unfold withSourceUrl.
  destruct (RegExp_test SOURCE_URL_REGEX expression) eqn:T; [exact T|].
  apply SOURCE_URL_REGEX_spec, marker_appended_matches.
Qed.

(** X9: the text an expression evaluation transmits is stable: evaluating
    the transmitted text in its turn transmits it as it is, so that the
    marker line is never appended twice. *)
Theorem transmitted_expression_is_stable (host : Host) (client : CDPSession)
  (contextId : JSNumber) (frame : option JSNumber) (pageFunction : JSValue)
  (args : option (list JSValue)) (transmitted : string) :
  isString pageFunction = true ->
  fst (run (_evaluateInternal host client contextId pageFunction frame args))
  = [Runtime_evaluate transmitted contextId true true true] ->
  forall (client' : CDPSession) (args' : option (list JSValue)),
    fst (run (_evaluateInternal host client' contextId (VString transmitted)
                frame args'))
    = [Runtime_evaluate transmitted contextId true true true].
Proof.
  intros S E client' args'.
  rewrite evaluate_expression_run in E by exact S.
  cbn [fst] in E. injection E as <-.
  rewrite evaluate_expression_run by reflexivity.
  cbn [fst stringOf]. unfold withSourceUrl at 1.
  rewrite withSourceUrl_matches. reflexivity.
Qed.

Lemma transmitted_expression_is_stable_witness :
  fst (run (_evaluateInternal exampleHost answersTwo posZero
              (VString ("1+1" ++ newline ++ marker)) None None))
  = [Runtime_evaluate ("1+1" ++ newline ++ marker) posZero true true true].
Proof.
  apply (transmitted_expression_is_stable exampleHost answersTwo posZero None
           (VString "1+1") None ("1+1" ++ newline ++ marker));
    reflexivity.
Defined.

Lemma isAtOrHash_cases (c : ascii) :
  isAtOrHash c = true -> c = "@"%char \/ c = "#"%char.
Proof.
  unfold isAtOrHash. rewrite orb_true_iff, !Ascii.eqb_eq. auto.
Qed.

Lemma hasSourceUrlComment_contains (s : string) :
  hasSourceUrlComment s ->
  contains s "//# sourceURL=" \/ contains s "//@ sourceURL=".
Proof.
  intros (before & blanks & c & ws1 & url & ws2 & after & -> & _ & _ & C & _).
  apply isAtOrHash_cases in C. destruct C as [->| ->]; [right|left];
    exists (before ++ blanks), (ws1 ++ url ++ ws2 ++ after);
    rewrite append_assoc; reflexivity.
Qed.

(** X10: an expression in which neither [//# sourceURL=] nor
    [//@ sourceURL=] occurs anywhere is transmitted with the marker line
    appended. *)
Theorem marker_appended_without_source_url_text (host : Host)
  (client : CDPSession) (contextId : JSNumber) (frame : option JSNumber)
  (pageFunction : JSValue) (args : option (list JSValue)) :
  isString pageFunction = true ->
  ~ contains (stringOf pageFunction) "//# sourceURL=" ->
  ~ contains (stringOf pageFunction) "//@ sourceURL=" ->
  fst (run (_evaluateInternal host client contextId pageFunction frame args))
  = [Runtime_evaluate (stringOf pageFunction ++ newline ++ marker) contextId
       true true true].
Proof.
  intros S N1 N2. rewrite evaluate_expression_run by exact S. cbn [fst].
  destruct (withSourceUrl_cases (stringOf pageFunction)) as [_ A].
  rewrite A; [reflexivity|].
  intros H. apply hasSourceUrlComment_contains in H. tauto.
Qed.

Lemma marker_appended_without_source_url_text_witness :
  fst (run (_evaluateInternal exampleHost answersTwo posZero
              (VString "document.title") None None))
  = [Runtime_evaluate ("document.title" ++ newline ++ marker) posZero
       true true true].
Proof.
  apply (marker_appended_without_source_url_text exampleHost answersTwo posZero
           None (VString "document.title") None); [reflexivity| |];
    intros H; apply includes_spec in H; vm_compute in H; discriminate H.
Defined.

(* ------------------------------------------------------------------ *)
(** ** The static file server *)

Lemma method_test (req : IncomingMessage.t) :
  match IncomingMessage.method req with
  | Some m => negb (String.eqb m "GET") && negb (String.eqb m "HEAD")
  | None => true
  end = negb (isGetOrHead req).
Proof.
  unfold isGetOrHead. destruct (IncomingMessage.method req) as [m|];
    [|reflexivity].
  rewrite negb_orb. reflexivity.
Qed.

(** Past the method test, the conversions of the URL come first; the
    response depends on the file only through the path they give. *)
Lemma serveStatic_resolved (host : ServerHost) (root hash : string)
  (req : IncomingMessage.t) (path : string) :
  isGetOrHead req = true ->
  requestedPath host root hash req = Return path ->
  serveStatic host root hash req =
  if negb (isPathInside host path root) then
    ([WriteHead 500; Write "Not allowed to read"; EndResponse], Return tt)
  else if negb (existsSync host path) then
    ([WriteHead 404; Write (path ++ " does not exist"); EndResponse], Return tt)
  else
    match lstat host path with
    | Throw e => ([], Throw e)
    | Return stats =>
        if Stats.isDirectory stats then
          ([WriteHead 500; Write "Is a directory"; EndResponse], Return tt)
        else if negb (truthy (IncomingMessage.range req)
                      && truthyNumber (Stats.size stats))
        then (wholeFile host path stats, Return tt)
        else
          match parseRange host (Stats.size stats)
                  (match IncomingMessage.range req with
                   | Some header => header
                   | None => EmptyString
                   end) with
          | RangeFailure _ => (rangeNotSatisfiable host stats, Return tt)
          | Ranges type ranges =>
              if String.eqb type "bytes" then
                match ranges with
                | [] =>
                    ([], Throw (Thrown (mkError ClassTypeError
                       "Cannot destructure property 'start' of 'range[0]' as it is undefined.")))
                | first :: _ => (partialContent host path stats first, Return tt)
                end
              else (rangeNotSatisfiable host stats, Return tt)
          end
    end.
Proof.
  intros M P. unfold serveStatic, requestedPath in *.
  rewrite method_test, M. cbn [negb].
  destruct (URL_pathname host (IncomingMessage.url req)) as [pathname|e];
    [|discriminate P].
  destruct (removeHashPrefix host hash pathname) as [filename|e];
    [|discriminate P].
  destruct (decodeURIComponent host filename) as [decoded|e];
    [|discriminate P].
  injection P as <-. cbv zeta.
  destruct (isPathInside host (join host root decoded) root); [|reflexivity].
  destruct (existsSync host (join host root decoded)); [|reflexivity].
  cbn [negb].
  destruct (lstat host (join host root decoded)) as [stats|e]; [|reflexivity].
  destruct (Stats.isDirectory stats); [reflexivity|].
  destruct (negb _); [reflexivity|].
  destruct (parseRange host _ _) as [code|type ranges]; [reflexivity|].
  destruct (String.eqb type "bytes"); [|reflexivity].
  destruct ranges as [|[start end_] rest]; reflexivity.
Qed.

Lemma serveStatic_found (host : ServerHost) (root hash : string)
  (req : IncomingMessage.t) (path : string) (stats : Stats.t) :
  fileFound host root hash req path stats ->
  serveStatic host root hash req =
  if negb (truthy (IncomingMessage.range req) && truthyNumber (Stats.size stats))
  then (wholeFile host path stats, Return tt)
  else
    match parseRange host (Stats.size stats)
            (match IncomingMessage.range req with
             | Some header => header
             | None => EmptyString
             end) with
    | RangeFailure _ => (rangeNotSatisfiable host stats, Return tt)
    | Ranges type ranges =>
        if String.eqb type "bytes" then
          match ranges with
          | [] =>
              ([], Throw (Thrown (mkError ClassTypeError
                 "Cannot destructure property 'start' of 'range[0]' as it is undefined.")))
          | first :: _ => (partialContent host path stats first, Return tt)
          end
        else (rangeNotSatisfiable host stats, Return tt)
    end.
Proof.
  intros (M & P & I & E & L & D).
  rewrite (serveStatic_resolved host root hash req path M P).
  rewrite I, E, L, D. reflexivity.
Qed.

(** X12: a request whose method is neither GET nor HEAD, or that has no
    method, is answered 405 with [Allow: GET, HEAD] and an empty body,
    whatever its URL and whatever the file system holds. *)
Theorem serveStatic_method_not_allowed (host : ServerHost) (root hash : string)
  (req : IncomingMessage.t) :
  isGetOrHead req = false ->
  serveStatic host root hash req = (methodNotAllowed, Return tt).
Proof.
  intros M. unfold serveStatic. rewrite method_test, M. reflexivity.
Qed.

Lemma serveStatic_method_not_allowed_witness :
  serveStatic exampleServer "/srv" EmptyString
    (IncomingMessage.mk (Some "POST") "/index.html" None)
  = (methodNotAllowed, Return tt).
Proof.
  apply (serveStatic_method_not_allowed exampleServer "/srv" EmptyString
           (IncomingMessage.mk (Some "POST") "/index.html" None)).
  reflexivity.
Defined.

(** X13: the guards come in this order. A path outside the root is
    refused with 500 whether or not the file exists; a path inside the root
    that does not exist is answered 404 with the path in the body; a
    directory is refused with 500. *)
Theorem serveStatic_refusals (host : ServerHost) (root hash : string)
  (req : IncomingMessage.t) (path : string) :
  isGetOrHead req = true ->
  requestedPath host root hash req = Return path ->
  (isPathInside host path root = false ->
     serveStatic host root hash req
     = ([WriteHead 500; Write "Not allowed to read"; EndResponse], Return tt))
  /\ (isPathInside host path root = true -> existsSync host path = false ->
      serveStatic host root hash req
      = ([WriteHead 404; Write (path ++ " does not exist"); EndResponse],
         Return tt))
  /\ (isPathInside host path root = true -> existsSync host path = true ->
      forall stats, lstat host path = Return stats ->
        Stats.isDirectory stats = true ->
        serveStatic host root hash req
        = ([WriteHead 500; Write "Is a directory"; EndResponse], Return tt)).
Proof.
  intros M P. rewrite (serveStatic_resolved host root hash req path M P).
  split; [|split].
  - intros ->. reflexivity.
  - intros -> ->. reflexivity.
  - intros -> -> stats -> ->. reflexivity.
Qed.

Lemma serveStatic_refusals_witness :
  serveStatic exampleServer "/srv" EmptyString
    (IncomingMessage.mk (Some "GET") "/missing.html" None)
  = ([WriteHead 404; Write ("/srv/missing.html" ++ " does not exist");
      EndResponse], Return tt).
Proof.
  apply (serveStatic_refusals exampleServer "/srv" EmptyString
           (IncomingMessage.mk (Some "GET") "/missing.html" None)
           "/srv/missing.html"); reflexivity.
Defined.

(** X14: a HEAD request is answered exactly as the GET request for the
    same URL and headers, body included. *)
Theorem serveStatic_head_as_get (host : ServerHost) (root hash : string)
  (req : IncomingMessage.t) :
  serveStatic host root hash (withMethod "HEAD" req)
  = serveStatic host root hash (withMethod "GET" req).
Proof. reflexivity. Qed.

(** X15: for a regular file inside the root, a request without a [Range]
    header, with an empty one, or for a file whose size is zero is answered
    200 with the whole file: the content type the lookup gives, or
    application/octet-stream when it gives none, and the size as content
    length. *)
Theorem serveStatic_whole_file (host : ServerHost) (root hash : string)
  (req : IncomingMessage.t) (path : string) (stats : Stats.t) :
  fileFound host root hash req path stats ->
  lacks (IncomingMessage.range req) \/ truthyNumber (Stats.size stats) = false ->
  serveStatic host root hash req = (wholeFile host path stats, Return tt)
  /\ (mimeLookup host path = None ->
      In (SetHeader "content-type" (HeaderText "application/octet-stream"))
        (wholeFile host path stats)).
Proof.
  intros F W. rewrite (serveStatic_found host root hash req path stats F).
  assert (H : truthy (IncomingMessage.range req)
              && truthyNumber (Stats.size stats) = false).
  { apply andb_false_iff. destruct W as [L|Z]; [left|right; exact Z].
    apply truthy_lacks, L. }
  rewrite H. split; [reflexivity|].
  intros N. left. unfold contentType. rewrite N. reflexivity.
Qed.

Lemma serveStatic_whole_file_witness :
  serveStatic exampleServer "/srv" EmptyString (getIndex None)
  = (wholeFile exampleServer "/srv/index.html" (Stats.mk false tenBytes),
     Return tt).
Proof.
  apply (serveStatic_whole_file exampleServer "/srv" EmptyString (getIndex None)
           "/srv/index.html" (Stats.mk false tenBytes)).
  - repeat split.
  - left. left. reflexivity.
Defined.

(** X16: for a regular file inside the root that is not empty, a request
    with a [Range] header that parses to byte ranges is answered 206 for the
    first range alone: the stream piped covers that range, and the content
    length is its end minus its start plus one. *)
Theorem serveStatic_partial_content (host : ServerHost) (root hash : string)
  (req : IncomingMessage.t) (path : string) (stats : Stats.t)
  (header : string) (first : Range.t) (others : list Range.t) :
  fileFound host root hash req path stats ->
  carries (IncomingMessage.range req) header ->
  truthyNumber (Stats.size stats) = true ->
  parseRange host (Stats.size stats) header = Ranges "bytes" (first :: others) ->
  serveStatic host root hash req
  = (partialContent host path stats first, Return tt)
  /\ statusOf (partialContent host path stats first) = Some 206%Z
  /\ lastEffect (partialContent host path stats first)
     = Some (Pipe path (Some first)).
Proof.
  intros F C T R. rewrite (serveStatic_found host root hash req path stats F).
  assert (H : truthy (IncomingMessage.range req) = true)
    by (apply truthy_carries; eauto).
  destruct C as [E _]. rewrite H, T, E, R. repeat split.
Qed.

Lemma serveStatic_partial_content_witness :
  serveStatic exampleServer "/srv" EmptyString (getIndex (Some "bytes=0-4"))
  = (partialContent exampleServer "/srv/index.html" (Stats.mk false tenBytes)
       (Range.mk posZero (integer 4)), Return tt).
Proof.
  apply (serveStatic_partial_content exampleServer "/srv" EmptyString
           (getIndex (Some "bytes=0-4")) "/srv/index.html"
           (Stats.mk false tenBytes) "bytes=0-4"
           (Range.mk posZero (integer 4)) []).
  - repeat split.
  - split; [reflexivity|discriminate].
  - reflexivity.
  - reflexivity.
Defined.

Example content_length_of_first_five_bytes :
  In (SetHeader "content-length" (HeaderNumber (integer 5)))
    (partialContent exampleServer "/srv/index.html" (Stats.mk false tenBytes)
       (Range.mk posZero (integer 4))).
Proof. vm_compute. auto. Qed.

(** X17: for a regular file inside the root that is not empty, a request
    whose [Range] header does not parse to ranges, or parses to ranges of a
    unit other than bytes, is answered 416 with [Content-Range: bytes */]
    and the size; no stream is piped. *)
Theorem serveStatic_range_not_satisfiable (host : ServerHost)
  (root hash : string) (req : IncomingMessage.t) (path : string)
  (stats : Stats.t) (header : string) :
  fileFound host root hash req path stats ->
  carries (IncomingMessage.range req) header ->
  truthyNumber (Stats.size stats) = true ->
  (exists code, parseRange host (Stats.size stats) header = RangeFailure code)
  \/ (exists type ranges,
        parseRange host (Stats.size stats) header = Ranges type ranges
        /\ type <> "bytes") ->
  serveStatic host root hash req = (rangeNotSatisfiable host stats, Return tt)
  /\ existsb isPipe (rangeNotSatisfiable host stats) = false.
Proof.
  intros F C T R. rewrite (serveStatic_found host root hash req path stats F).
  assert (H : truthy (IncomingMessage.range req) = true)
    by (apply truthy_carries; eauto).
  destruct C as [E _]. rewrite H, T, E. cbn [andb negb].
  destruct R as [[code ->]|[type [ranges [-> N]]]].
  - split; reflexivity.
  - apply String.eqb_neq in N. rewrite N. split; reflexivity.
Qed.

Lemma serveStatic_range_not_satisfiable_witness :
  serveStatic exampleServer "/srv" EmptyString (getIndex (Some "bytes=20-30"))
  = (rangeNotSatisfiable exampleServer (Stats.mk false tenBytes), Return tt).
Proof.
  apply (serveStatic_range_not_satisfiable exampleServer "/srv" EmptyString
           (getIndex (Some "bytes=20-30")) "/srv/index.html"
           (Stats.mk false tenBytes) "bytes=20-30").
  - repeat split.
  - split; [reflexivity|discriminate].
  - reflexivity.
  - left. eexists. reflexivity.
Defined.

Lemma requestedPath_throws (host : ServerHost) (root hash : string)
  (req : IncomingMessage.t) (e : Exception) :
  isGetOrHead req = true ->
  requestedPath host root hash req = Throw e ->
  serveStatic host root hash req = ([], Throw e).
Proof.
  intros M P. unfold serveStatic, requestedPath in *.
  rewrite method_test, M. cbn [negb].
  destruct (URL_pathname host (IncomingMessage.url req)) as [pathname|e1];
    [|injection P as <-; reflexivity].
  destruct (removeHashPrefix host hash pathname) as [filename|e2];
    [|injection P as <-; reflexivity].
  destruct (decodeURIComponent host filename) as [decoded|e3];
    [discriminate P|injection P as <-; reflexivity].
Qed.

(** A response that is complete: it has one of the six statuses, its last
    effect is the one end or the one pipe, and a stream is piped exactly
    under 200 and 206. *)
Ltac complete_response :=
  right; do 2 eexists; split; [reflexivity|]; cbn; intuition eauto.

(** X18: whatever the request and the host, a response is either not
    begun at all, when the handler throws, or complete: it has a status
    among 200, 206, 404, 405, 416 and 500, its last effect is the one end
    or the one pipe, and a stream is piped exactly under 200 and 206. *)
Theorem serveStatic_response_complete (host : ServerHost) (root hash : string)
  (req : IncomingMessage.t) :
  (exists e, serveStatic host root hash req = ([], Throw e))
  \/ (exists effects code,
        serveStatic host root hash req = (effects, Return tt)
        /\ statusOf effects = Some code
        /\ In code [200; 206; 404; 405; 416; 500]%Z
        /\ List.length (filter (fun e => isEnd e || isPipe e) effects) = 1
        /\ (exists e, lastEffect effects = Some e /\ isEnd e || isPipe e = true)
        /\ existsb isPipe effects = (Z.eqb code 200 || Z.eqb code 206)).
Proof.
  destruct (isGetOrHead req) eqn:M.
  - destruct (requestedPath host root hash req) as [path|e] eqn:P.
    + rewrite (serveStatic_resolved host root hash req path M P).
      destruct (isPathInside host path root); cbn [negb];
        [|complete_response].
      destruct (existsSync host path); cbn [negb]; [|complete_response].
      destruct (lstat host path) as [stats|e]; [|left; eauto].
      destruct (Stats.isDirectory stats); [complete_response|].
      destruct (negb _); [complete_response|].
      destruct (parseRange host _ _) as [code|type ranges];
        [complete_response|].
      destruct (String.eqb type "bytes"); [|complete_response].
      destruct ranges as [|first rest]; [left; eauto|].
      complete_response.
    + left. exists e. apply requestedPath_throws; assumption.
  - right. exists methodNotAllowed, 405%Z.
    unfold serveStatic. rewrite method_test, M.
    cbn. intuition eauto.
Qed.

(* ------------------------------------------------------------------ *)
(** ** The input dragger *)

Lemma trimStart_cases (s : string) :
  (every isWhiteSpace s = true /\ trimStart s = EmptyString)
  \/ (every isWhiteSpace s = false
      /\ exists c rest, trimStart s = String c rest /\ isWhiteSpace c = false).
Proof.
  induction s as [|c s IH]; cbn [every trimStart].
  - left. split; reflexivity.
  - destruct (isWhiteSpace c) eqn:W; cbn [andb].
    + exact IH.
    + right. split; [reflexivity|]. exists c, s. split; [reflexivity|exact W].
Qed.

Lemma trimEnd_nonempty (c : ascii) (s : string) :
  isWhiteSpace c = false -> trimEnd (String c s) <> EmptyString.
Proof.
  intros W. cbn [trimEnd]. destruct (trimEnd s); [|discriminate].
  rewrite W. discriminate.
Qed.

(** A text trims to nothing exactly when it is made of white space. *)
Lemma trim_blank (s : string) :
  trim s = EmptyString <-> every isWhiteSpace s = true.
Proof.
  unfold trim. destruct (trimStart_cases s) as [[E T]|[E [c [rest [T W]]]]];
    rewrite T, E.
  - split; reflexivity.
  - split; [|discriminate]. intros H. exfalso.
    exact (trimEnd_nonempty c rest W H).
Qed.

(** X19: leaving the fallback input commits the text only if it is not
    blank and the input is valid: then [onTextChange] receives the text as
    typed, untrimmed, once, and the input closes. A text made of white
    space closes the input without a commit; an invalid text is reported
    and the input stays open. *)
Theorem onBlur_commits_only_valid_text (element : InputElement.t)
  (hasOnTextChange : bool) :
  let text := InputElement.value element in
  (every isWhiteSpace text = true ->
     onBlur (Some element) hasOnTextChange = [SetInputFallback false])
  /\ (every isWhiteSpace text = false ->
      InputElement.checkValidity element = false ->
      onBlur (Some element) hasOnTextChange = [ReportValidity])
  /\ (every isWhiteSpace text = false ->
      InputElement.checkValidity element = true ->
      onBlur (Some element) true = [OnTextChange text; SetInputFallback false]
      /\ onBlur (Some element) false = [SetInputFallback false])
  /\ (forall committed,
        In (OnTextChange committed) (onBlur (Some element) hasOnTextChange) ->
        committed = text
        /\ every isWhiteSpace text = false
        /\ InputElement.checkValidity element = true).
Proof.
  intros text. unfold onBlur. fold text.
  pose proof (trim_blank text) as B.
  destruct (String.eqb_spec (trim text) EmptyString) as [E|N].
  - apply B in E. rewrite E.
    split; [reflexivity|]. split; [discriminate|]. split; [discriminate|].
    intros committed [H|[]]. discriminate H.
  - assert (W : every isWhiteSpace text = false).
    { destruct (every isWhiteSpace text); [|reflexivity].
      exfalso. apply N, B. reflexivity. }
    rewrite W. split; [discriminate|].
    destruct (InputElement.checkValidity element).
    + split; [discriminate|]. split; [split; reflexivity|].
      destruct hasOnTextChange; cbn [app]; intros committed [H|H].
      * injection H as <-. auto.
      * destruct H as [H|[]]. discriminate H.
      * discriminate H.
      * destruct H.
    + split; [reflexivity|]. split; [discriminate|].
      intros committed [H|[]]. discriminate H.
Qed.

Lemma onBlur_commits_only_valid_text_witness :
  onBlur (Some (InputElement.mk "   " true)) true = [SetInputFallback false]
  /\ onBlur (Some (InputElement.mk " 12 " true)) true
     = [OnTextChange " 12 "; SetInputFallback false].
Proof.
  split.
  - refine (proj1 (onBlur_commits_only_valid_text
                     (InputElement.mk "   " true) true) _).
    reflexivity.
  - refine (proj1 (proj1 (proj2 (proj2 (onBlur_commits_only_valid_text
                     (InputElement.mk " 12 " true) true))) _ _));
      reflexivity.
Defined.

(* ------------------------------------------------------------------ *)
(** ** A remote failure on a concrete call *)

Lemma described_exception_is_structured_witness :
  snd (run (_evaluateInternal exampleHost
              (answering (Response.mk
                 (Some (ExceptionDetails.mk "Uncaught"
                    (Some (RemoteObject.mk (Some "object") (Some "TypeError") None
                             None
                             (Some ("TypeError: x is not a function" ++ newline
                                    ++ "    at <anonymous>:1:1"))
                             (Some "9")))))
                 (RemoteObject.mk (Some "undefined") None None None None None)))
              posZero (VString "x()") (Some posZero) None))
  = Throw (ThrownSymbolicateable
      (SymbolicateableError.mk
         (Some ("TypeError: x is not a function" ++ newline
                ++ "    at <anonymous>:1:1"))
         (Some "TypeError")
         (Some "TypeError: x is not a function")
         (Some posZero)
         [mkStackFrame None (Some "TypeError: x is not a function") None None;
          mkStackFrame None (Some "    at <anonymous>:1:1") None None])).
Proof.
  refine (proj1 (described_exception_is_structured exampleHost posZero
                   (Some posZero) "Uncaught"
                   (RemoteObject.mk (Some "object") (Some "TypeError") None None
                      (Some ("TypeError: x is not a function" ++ newline
                             ++ "    at <anonymous>:1:1"))
                      (Some "9"))
                   (RemoteObject.mk (Some "undefined") None None None None None)
                   ("TypeError: x is not a function" ++ newline
                    ++ "    at <anonymous>:1:1") _)
            (VString "x()") None _); reflexivity.
Defined.
